(** * Resume parser: the hybrid extraction pipeline

    A shallow embedding of [app/services/rule_based_parser.py],
    [app/services/llm_parser.py], [app/config.py], [app/models/resume_models.py]
    and the [/parse] route of [app/api/routes.py], followed by the properties
    of the pipeline.

    Conventions of the embedding.
    - A Python [str] is a [string] whose characters are code points below 256.
    - A Python [float] is a binary64 [float] of the kernel, so every sum,
      quotient and comparison rounds as it does in the interpreter.
    - [Optional[T]] is [option T]; a [Dict[str, str]] is a [gmap string string].
    - Exceptions are values of [exn]; a call that may raise returns [exn + A]. *)

From Stdlib Require Import ZArith NArith QArith String Ascii List Bool Lia.
From Stdlib Require Import Floats.
From stdpp Require Import base strings gmap list.
Close Scope Q_scope.

Set Warnings "-inexact-float,-register-all".
Local Open Scope string_scope.

(* ===================================================================== *)
(** ** Python built-ins used by the parsers *)
(* ===================================================================== *)

Module Py.

Definition in_range (lo hi : N) (c : ascii) : bool :=
  let n := N_of_ascii c in (lo <=? n)%N && (n <=? hi)%N.

(** [str.isspace] on one code point: TAB..CR, FS..US, SPACE, NEL, NBSP. *)
Definition isspace (c : ascii) : bool :=
  in_range 9 13 c || in_range 28 32 c
  || (N_of_ascii c =? 133)%N || (N_of_ascii c =? 160)%N.

Definition isdecimal (c : ascii) : bool := in_range 48 57 c.

(** [str.isalnum] on one code point below 256. *)
Definition isalnum (c : ascii) : bool :=
  in_range 48 57 c || in_range 65 90 c || in_range 97 122 c
  || (N_of_ascii c =? 170)%N || in_range 178 179 c || (N_of_ascii c =? 181)%N
  || in_range 185 186 c || in_range 188 190 c
  || in_range 192 214 c || in_range 216 246 c || in_range 248 255 c.

(** One code point of [str.lower]: A-Z and the Latin-1 capitals. *)
Definition lower_char (c : ascii) : ascii :=
  if in_range 65 90 c || in_range 192 214 c || in_range 216 222 c
  then ascii_of_N (N_of_ascii c + 32)
  else c.

Fixpoint lower (s : string) : string :=
  match s with
  | EmptyString => EmptyString
  | String c s' => String (lower_char c) (lower s')
  end.

Definition len (s : string) : nat := String.length s.

(** Truthiness of a [str]: the empty string is falsy. *)
Definition nonempty (s : string) : bool :=
  match s with EmptyString => false | String _ _ => true end.

(** Truthiness of an [Optional[str]]. *)
Definition truthy (o : option string) : bool :=
  match o with Some s => nonempty s | None => false end.

(** Truthiness of a list. *)
Definition truthy_list {A} (l : list A) : bool :=
  match l with [] => false | _ :: _ => true end.

Definition startswith (p s : string) : bool := String.prefix p s.

(** [needle in hay]. *)
Fixpoint contains (needle hay : string) : bool :=
  String.prefix needle hay ||
  match hay with
  | EmptyString => false
  | String _ hay' => contains needle hay'
  end.

Fixpoint lstrip (s : string) : string :=
  match s with
  | EmptyString => EmptyString
  | String c s' => if isspace c then lstrip s' else s
  end.

Fixpoint rstrip (s : string) : string :=
  match s with
  | EmptyString => EmptyString
  | String c s' =>
      match rstrip s' with
      | EmptyString => if isspace c then EmptyString else String c EmptyString
      | r => String c r
      end
  end.

Definition strip (s : string) : string := rstrip (lstrip s).

(** [s.split(sep)] for a non-empty [sep] (every call in the source passes a
    non-empty literal): the first piece and the pieces after it. [skip]
    counts the characters of a separator still to be passed over. *)
Fixpoint split_from (sep : string) (skip : nat) (s : string)
  : string * list string :=
  match s with
  | EmptyString => (EmptyString, [])
  | String c s' =>
      match skip with
      | S n => split_from sep n s'
      | O =>
          if String.prefix sep s
          then (EmptyString,
                let '(p, ps) := split_from sep (String.length sep - 1) s' in
                p :: ps)
          else let '(p, ps) := split_from sep 0 s' in (String c p, ps)
      end
  end.

Definition split (sep s : string) : list string :=
  let '(p, ps) := split_from sep 0 s in p :: ps.

(** [sep.join(l)]. *)
Fixpoint join (sep : string) (l : list string) : string :=
  match l with
  | [] => EmptyString
  | [x] => x
  | x :: l' => x ++ sep ++ join sep l'
  end.

(** [s[:n]]. *)
Fixpoint take (n : nat) (s : string) : string :=
  match n, s with
  | S n', String c s' => String c (take n' s')
  | _, _ => EmptyString
  end.

(** [s[n:]]. *)
Fixpoint drop (n : nat) (s : string) : string :=
  match n, s with
  | S n', String _ s' => drop n' s'
  | _, _ => s
  end.

(** [s.find(c)] and [s.rfind(c)] for a one-character [c]: the index, or -1. *)
Fixpoint find (c : ascii) (s : string) : Z :=
  match s with
  | EmptyString => (-1)%Z
  | String d s' =>
      if Ascii.eqb c d then 0%Z
      else match find c s' with
           | Zneg _ => (-1)%Z
           | i => (i + 1)%Z
           end
  end.

Fixpoint rfind (c : ascii) (s : string) : Z :=
  match s with
  | EmptyString => (-1)%Z
  | String d s' =>
      match rfind c s' with
      | Zneg _ => if Ascii.eqb c d then 0%Z else (-1)%Z
      | i => (i + 1)%Z
      end
  end.

(** A slice bound: negative indices count from the end, then clamp. *)
Definition clamp (n : nat) (i : Z) : nat :=
  let j := if (i <? 0)%Z then (i + Z.of_nat n)%Z else i in
  Z.to_nat (Z.min (Z.max 0 j) (Z.of_nat n)).

(** [s[a:b]]. *)
Definition slice (a b : Z) (s : string) : string :=
  let n := String.length s in
  let lo := clamp n a in
  let hi := clamp n b in
  take (hi - lo) (drop lo s).

(** [l[-1]] for a list known to be non-empty ([split] never returns []). *)
Definition last_item (l : list string) : string := List.last l EmptyString.

(** [x in l] for a list of strings. *)
Definition mem (x : string) (l : list string) : bool :=
  existsb (String.eqb x) l.

Definition nl : string := String "010" EmptyString.

End Py.

(* ===================================================================== *)
(** ** The [re] module: a backtracking matcher *)
(* ===================================================================== *)

Module Re.

(** The fragment of the pattern language that the source uses. [Grp] is
    capturing group 1 (no pattern of the source has a second group). *)
Inductive regex : Type :=
| Eps : regex
| Chr : (ascii -> bool) -> regex
| Seq : regex -> regex -> regex
| Alt : regex -> regex -> regex
| Star : regex -> regex
| Grp : regex -> regex
| Bnd : regex
| Ahead : regex -> regex.

Definition Opt (r : regex) : regex := Alt r Eps.
Definition Plus (r : regex) : regex := Seq r (Star r).
Definition Cat (rs : list regex) : regex := fold_right Seq Eps rs.

(** [r{n}], [r{0,n}], [r{m,n}] and [r{m,}], all greedy. *)
Fixpoint Rep (n : nat) (r : regex) : regex :=
  match n with O => Eps | S n' => Seq r (Rep n' r) end.
Fixpoint UpTo (n : nat) (r : regex) : regex :=
  match n with O => Eps | S n' => Opt (Seq r (UpTo n' r)) end.
Definition Between (m n : nat) (r : regex) : regex :=
  Seq (Rep m r) (UpTo (n - m) r).
Definition AtLeast (m : nat) (r : regex) : regex := Seq (Rep m r) (Star r).

Definition Lit (c : ascii) : regex := Chr (Ascii.eqb c).
(** A literal under [re.IGNORECASE]. *)
Definition LitI (c : ascii) : regex :=
  Chr (fun x => Ascii.eqb (Py.lower_char x) (Py.lower_char c)).
Fixpoint StrI (s : string) : regex :=
  match s with
  | EmptyString => Eps
  | String c s' => Seq (LitI c) (StrI s')
  end.

Fixpoint one_of (set : string) (c : ascii) : bool :=
  match set with
  | EmptyString => false
  | String d set' => Ascii.eqb c d || one_of set' c
  end.

(** [\d], [\w], [\s], [A-Z], [a-z]. *)
Definition digit : ascii -> bool := Py.isdecimal.
Definition word (c : ascii) : bool := Py.isalnum c || Ascii.eqb c "_".
Definition space : ascii -> bool := Py.isspace.
Definition upper_AZ : ascii -> bool := Py.in_range 65 90.
Definition lower_az : ascii -> bool := Py.in_range 97 122.

Definition is_word (o : option ascii) : bool :=
  match o with Some c => word c | None => false end.
Definition head (s : string) : option ascii :=
  match s with EmptyString => None | String c _ => Some c end.

Fixpoint has_group (r : regex) : bool :=
  match r with
  | Grp _ => true
  | Seq a b | Alt a b => has_group a || has_group b
  | Star a | Ahead a => has_group a
  | _ => false
  end.

(** [run r prev s g k]: match [r] at the position whose previous character is
    [prev] and whose remaining text is [s], with [g] the current capture,
    and hand each way of matching to the continuation [k], most preferred
    first (left alternative first, longest repetition first); the first
    success wins. *)
Fixpoint run {A : Type} (r : regex) (prev : option ascii) (s : string)
    (g : option string)
    (k : option ascii -> string -> option string -> option A)
    {struct r} : option A :=
  match r with
  | Eps => k prev s g
  | Chr p =>
      match s with
      | String c s' => if p c then k (Some c) s' g else None
      | EmptyString => None
      end
  | Seq r1 r2 => run r1 prev s g (fun prev' s' g' => run r2 prev' s' g' k)
  | Alt r1 r2 =>
      match run r1 prev s g k with
      | Some a => Some a
      | None => run r2 prev s g k
      end
  | Star r1 =>
      (fix loop (n : nat) (prev : option ascii) (s : string)
           (g : option string) {struct n} : option A :=
         match n with
         | O => k prev s g
         | S n' =>
             match run r1 prev s g
                     (fun prev' s' g' =>
                        if (String.length s' <? String.length s)%nat
                        then loop n' prev' s' g' else None) with
             | Some a => Some a
             | None => k prev s g
             end
         end) (String.length s) prev s g
  | Grp r1 =>
      run r1 prev s g
        (fun prev' s' _ =>
           k prev' s' (Some (Py.take (String.length s - String.length s') s)))
  | Bnd =>
      if xorb (is_word prev) (is_word (head s)) then k prev s g else None
  | Ahead r1 =>
      match run r1 prev s g (fun _ _ g' => Some g') with
      | Some g' => k prev s g'
      | None => None
      end
  end.

(** A match object: [group(0)] and [group(1)]. *)
Record mtch : Type := { whole : string; group1 : option string }.

(** [pattern.match] at one position. *)
Definition match_at (r : regex) (prev : option ascii) (s : string)
  : option mtch :=
  run r prev s None
    (fun _ s' g =>
       Some {| whole := Py.take (String.length s - String.length s') s;
               group1 := g |}).

(** The left-to-right scan behind [findall], [search], [split] and [sub]:
    the text before the first match, then each match with the text that
    follows it up to the next match. Matches do not overlap; [skip] counts
    the characters of the last match still to be passed over. No pattern of
    the source matches the empty string; after such a match the scan moves
    one character on. *)
Fixpoint scan (r : regex) (prev : option ascii) (skip : nat) (s : string)
  : string * list (mtch * string) :=
  match s with
  | EmptyString =>
      match skip, match_at r prev EmptyString with
      | O, Some m => (EmptyString, [(m, EmptyString)])
      | _, _ => (EmptyString, [])
      end
  | String c s' =>
      match skip with
      | S n => scan r (Some c) n s'
      | O =>
          match match_at r prev s with
          | Some m =>
              match String.length (whole m) with
              | O => let '(p, ms) := scan r (Some c) 0 s' in
                     (EmptyString, (m, String c p) :: ms)
              | S n => let '(p, ms) := scan r (Some c) n s' in
                       (EmptyString, (m, p) :: ms)
              end
          | None => let '(p, ms) := scan r (Some c) 0 s' in (String c p, ms)
          end
      end
  end.

Definition finditer (r : regex) (s : string) : list mtch :=
  map fst (snd (scan r None 0 s)).

(** [pattern.findall(s)]: with a group in the pattern the list holds what
    group 1 captured, the empty string when the group took no part in the
    match; without a group it holds the whole matches. *)
Definition findall (r : regex) (s : string) : list string :=
  map (fun m => if has_group r
                then match group1 m with Some x => x | None => EmptyString end
                else whole m)
      (finditer r s).

(** [pattern.search(s)]. *)
Definition search (r : regex) (s : string) : option mtch :=
  List.head (finditer r s).

(** [re.split(pattern, s)] for a pattern without groups. *)
Definition split (r : regex) (s : string) : list string :=
  let '(p, ms) := scan r None 0 s in p :: map snd ms.

(** [re.sub(pattern, '', s)]. *)
Definition sub_empty (r : regex) (s : string) : string :=
  let '(p, ms) := scan r None 0 s in
  fold_left String.append (map snd ms) p.

End Re.

(* ===================================================================== *)
(** ** [app/models/resume_models.py] *)
(* ===================================================================== *)

Module PersonalInfo.
Record t : Type := {
  full_name : option string;
  email : option string;
  phone : option string;
  address : option string;
  linkedin : option string;
  github : option string;
  portfolio : option string }.
Definition default : t :=
  {| full_name := None; email := None; phone := None; address := None;
     linkedin := None; github := None; portfolio := None |}.
End PersonalInfo.

Module Experience.
Record t : Type := {
  company : option string;
  position : option string;
  start_date : option string;
  end_date : option string;
  is_current : option bool;
  description : option string;
  achievements : list string }.
End Experience.

Module Education.
Record t : Type := {
  institution : option string;
  degree : option string;
  field_of_study : option string;
  graduation_date : option string;
  gpa : option string }.
End Education.

Module Skill.
Record t : Type := {
  category : option string;
  skills : list string }.
End Skill.

Module Certification.
Record t : Type := {
  name : option string;
  issuer : option string;
  date : option string;
  credential_id : option string }.
End Certification.

Module Project.
Record t : Type := {
  name : option string;
  description : option string;
  technologies : list string;
  url : option string;
  start_date : option string;
  end_date : option string }.
End Project.

Module Language.
Record t : Type := {
  language : option string;
  proficiency : option string }.
End Language.

Module ParsedResume.
(** [confidence_score] is declared [float], but the model does not validate
    assignments, so after [r.confidence_score = v] the field holds whatever
    [v] was: [None] here is Python's [None]. *)
Record t : Type := {
  personal_info : PersonalInfo.t;
  summary : option string;
  experience : list Experience.t;
  education : list Education.t;
  skills : list Skill.t;
  certifications : list Certification.t;
  projects : list Project.t;
  languages : list Language.t;
  confidence_score : option float;
  parsing_method : string;
  processing_time : float }.

(** [ParsedResume()]. *)
Definition default : t :=
  {| personal_info := PersonalInfo.default; summary := None;
     experience := []; education := []; skills := []; certifications := [];
     projects := []; languages := [];
     confidence_score := Some 0%float; parsing_method := "unknown";
     processing_time := 0%float |}.

Definition set_confidence_score (v : option float) (r : t) : t :=
  {| personal_info := personal_info r; summary := summary r;
     experience := experience r; education := education r;
     skills := skills r; certifications := certifications r;
     projects := projects r; languages := languages r;
     confidence_score := v; parsing_method := parsing_method r;
     processing_time := processing_time r |}.

Definition set_parsing_method (v : string) (r : t) : t :=
  {| personal_info := personal_info r; summary := summary r;
     experience := experience r; education := education r;
     skills := skills r; certifications := certifications r;
     projects := projects r; languages := languages r;
     confidence_score := confidence_score r; parsing_method := v;
     processing_time := processing_time r |}.

Definition set_processing_time (v : float) (r : t) : t :=
  {| personal_info := personal_info r; summary := summary r;
     experience := experience r; education := education r;
     skills := skills r; certifications := certifications r;
     projects := projects r; languages := languages r;
     confidence_score := confidence_score r;
     parsing_method := parsing_method r; processing_time := v |}.
End ParsedResume.

Module ParseResponse.
Record t : Type := {
  success : bool;
  data : option ParsedResume.t;
  error : option string;
  job_id : option string }.
End ParseResponse.

(* ===================================================================== *)
(** ** Exceptions *)
(* ===================================================================== *)

(** The exceptions of the model are the subclasses of [Exception] that the
    code raises or that its libraries raise into it. [LibraryError] stands
    for any other [Exception] a collaborator raises (a timeout, a decoding
    error, an API error), with the class name and the message. Signals below
    [BaseException] only (interrupts, task cancellation) are outside the
    model. *)
Inductive exn : Type :=
| HTTPException (status_code : Z) (detail : string)
| ValueError (msg : string)
| TypeError (msg : string)
| ValidationError (msg : string)
| Exception (msg : string)
| LibraryError (cls : string) (msg : string).

(** [str(e)]. *)
Definition str_exn (e : exn) : string :=
  match e with
  | HTTPException _ d => d
  | ValueError m | TypeError m | ValidationError m | Exception m => m
  | LibraryError _ m => m
  end.

Definition is_HTTPException (e : exn) : bool :=
  match e with HTTPException _ _ => true | _ => false end.

(** [json.loads] output. *)
Inductive json : Type :=
| JNull
| JBool (b : bool)
| JNum (x : float)
| JStr (s : string)
| JArr (l : list json)
| JObj (fields : list (string * json)).

(** A file as the route receives it. *)
Record UploadFile : Type := {
  filename : option string;
  content : string }.

(** What the pipeline takes from outside the repository and from the
    collaborators the specification leaves out of scope: the two credentials
    of [Settings] (read from the environment), the library validators, the
    text extraction bridge, the two hosted completion services and the
    clock. Each is a function of its arguments. *)
Record World : Type := {
  OPENAI_API_KEY : string;
  ANTHROPIC_API_KEY : string;
  (** pydantic's [EmailStr]: the normalised address, or [None] when the
      value is refused with a [ValidationError]. *)
  validate_email : string -> option string;
  (** [ParsedResume.model_validate]. *)
  model_validate : json -> option ParsedResume.t;
  (** [json.loads]. *)
  json_loads : string -> exn + json;
  (** [text_extractor.extract_text(file_content, filename)]. *)
  extract_text : string -> string -> exn + (string * string);
  (** [openai_client.chat.completions.create(...)], from the user prompt to
      [response.choices[0].message.content]. *)
  openai_create : string -> exn + string;
  (** [anthropic_client.messages.create(...)], from the user prompt to
      [response.content[0].text]. *)
  anthropic_create : string -> exn + string;
  (** [time.time() - start_time] when the response is built. *)
  elapsed : float }.

(* ===================================================================== *)
(** ** [app/services/rule_based_parser.py] *)
(* ===================================================================== *)

Module RuleBasedParser.
Import Re.
Import Py.

(** *** The patterns of [__init__] *)

(** [\b[A-Za-z0-9._%+-]+@[A-Za-z0-9.-]+\.[A-Z|a-z]{2,}\b] *)
Definition email_pattern : regex :=
  Cat [Bnd;
       Plus (Chr (fun c => upper_AZ c || lower_az c || digit c
                           || one_of "._%+-" c));
       Lit "@";
       Plus (Chr (fun c => upper_AZ c || lower_az c || digit c
                           || one_of ".-" c));
       Lit ".";
       AtLeast 2 (Chr (fun c => upper_AZ c || one_of "|" c || lower_az c));
       Bnd].

(** [[-.\s]] *)
Definition dash_dot_space : regex :=
  Chr (fun c => one_of "-." c || space c).

(** [(\+\d{1,3}[-.\s]?)?\(?\d{3}\)?[-.\s]?\d{3}[-.\s]?\d{4}] *)
Definition phone_pattern : regex :=
  Cat [Opt (Grp (Cat [Lit "+"; Between 1 3 (Chr digit); Opt dash_dot_space]));
       Opt (Lit "("); Rep 3 (Chr digit); Opt (Lit ")");
       Opt dash_dot_space; Rep 3 (Chr digit);
       Opt dash_dot_space; Rep 4 (Chr digit)].

(** [[\w-]+] *)
Definition handle : regex := Plus (Chr (fun c => word c || one_of "-" c)).

(** [linkedin\.com/in/[\w-]+] with [re.IGNORECASE] *)
Definition linkedin_pattern : regex := Seq (StrI "linkedin.com/in/") handle.

(** [github\.com/[\w-]+] with [re.IGNORECASE] *)
Definition github_pattern : regex := Seq (StrI "github.com/") handle.

(** [https?://[^\s]+] (compiled by [__init__], used nowhere) *)
Definition url_pattern : regex :=
  Cat [Lit "h"; Lit "t"; Lit "t"; Lit "p"; Opt (Lit "s");
       Lit ":"; Lit "/"; Lit "/"; Plus (Chr (fun c => negb (space c)))].

(** The section dictionary, in insertion order. *)
Definition section_keywords : list (string * list string) :=
  [("experience", ["experience"; "work experience"; "employment";
                   "work history"; "professional experience"]);
   ("education", ["education"; "academic background"; "qualifications";
                  "degrees"]);
   ("skills", ["skills"; "technical skills"; "competencies"; "expertise";
               "technologies"]);
   ("certifications", ["certifications"; "certificates"; "licenses";
                       "credentials"]);
   ("projects", ["projects"; "personal projects"; "portfolio";
                 "work samples"]);
   ("summary", ["summary"; "objective"; "profile"; "about me"; "overview"]);
   ("languages", ["languages"; "language skills"; "linguistic skills"])].

(** *** [_split_into_sections] *)

(** The two nested [for] loops with their [break]s: the first section of
    the dictionary one of whose keywords occurs in the line, for a line
    under 50 characters. *)
Fixpoint find_section (items : list (string * list string)) (line : string)
  : option string :=
  match items with
  | [] => None
  | (section, keywords) :: items' =>
      if existsb (fun keyword =>
                    contains (lower keyword) (lower line)
                    && (len line <? 50)%nat) keywords
      then Some section
      else find_section items' line
  end.

Definition section_found (line : string) : option string :=
  find_section section_keywords line.

(** The loop variables. *)
Record seg_state : Type := {
  sections : gmap string string;
  current_section : string;
  current_content : list string }.

(** [if current_content: sections[current_section] = '\n'.join(current_content)] *)
Definition flush (st : seg_state) : gmap string string :=
  if truthy_list (current_content st)
  then <[current_section st := join nl (current_content st)]> (sections st)
  else sections st.

(** One iteration of [for line in lines]. *)
Definition seg_step (st : seg_state) (line0 : string) : seg_state :=
  let line := strip line0 in
  if negb (nonempty line) then st
  else
    match section_found line with
    | Some section =>
        {| sections := flush st;
           current_section := section;
           current_content := [] |}
    | None =>
        {| sections := sections st;
           current_section := current_section st;
           current_content := current_content st ++ [line] |}
    end.

Definition seg_init : seg_state :=
  {| sections := ∅; current_section := "header"; current_content := [] |}.

Definition _split_into_sections (text : string) : gmap string string :=
  flush (fold_left seg_step (split nl text) seg_init).

(** [sections.get(key, '')] *)
Definition get (sections : gmap string string) (key : string) : string :=
  match sections !! key with Some v => v | None => EmptyString end.

(** [l[0] if l else None] *)
Definition first_or_None (l : list string) : option string := List.head l.

(** [[line.strip() for line in s.split('\n') if line.strip()]] *)
Definition stripped_lines (s : string) : list string :=
  map strip (filter (fun line => nonempty (strip line) = true) (split nl s)).

(** *** [_extract_personal_info] *)

Definition is_contact_line (line : string) : bool :=
  existsb (fun pattern =>
             match search pattern line with Some _ => true | None => false end)
          [email_pattern; phone_pattern; linkedin_pattern; github_pattern].

Definition is_name_line (line : string) : bool :=
  nonempty line && negb (is_contact_line line)
  && ((len line <? 100)%nat
      && negb (existsb (fun p => startswith p (lower line))
                       ["resume"; "cv"; "curriculum"])).

(** [phone_matches[0]] is a [str], never a tuple: the pattern has one group,
    so [findall] lists what that group captured, and the [isinstance] branch
    of the source is never taken. The constructor [PersonalInfo(...)]
    validates [email] as an [EmailStr] and raises when the value is
    refused. *)
Definition _extract_personal_info (W : World) (text : string)
    (sections : gmap string string) : exn + PersonalInfo.t :=
  let header_text := get sections "header" in
  let full_text := header_text ++ nl ++ take 500 text in
  let email := first_or_None (findall email_pattern full_text) in
  let phone := first_or_None (findall phone_pattern full_text) in
  let linkedin :=
    option_map (String.append "https://")
               (first_or_None (findall linkedin_pattern full_text)) in
  let github :=
    option_map (String.append "https://")
               (first_or_None (findall github_pattern full_text)) in
  let name := List.find is_name_line (map strip (split nl full_text)) in
  let build (email : option string) :=
    {| PersonalInfo.full_name := name;
       PersonalInfo.email := email;
       PersonalInfo.phone := phone;
       PersonalInfo.address := None;
       PersonalInfo.linkedin := linkedin;
       PersonalInfo.github := github;
       PersonalInfo.portfolio := None |} in
  match email with
  | None => inr (build None)
  | Some e =>
      match validate_email W e with
      | Some e' => inr (build (Some e'))
      | None => inl (ValidationError "value is not a valid email address")
      end
  end.

(** *** [_extract_summary] *)

Definition _extract_summary (sections : gmap string string)
  : option string :=
  let summary_text := get sections "summary" in
  if nonempty summary_text then Some (strip summary_text) else None.

(** *** [_extract_experience] *)

(** [\n(?=[A-Z][^a-z\n]*[A-Z])] *)
Definition entry_boundary : regex :=
  Seq (Lit "010")
      (Ahead (Cat [Chr upper_AZ;
                   Star (Chr (fun c => negb (lower_az c || Ascii.eqb c "010")));
                   Chr upper_AZ])).

(** [(\d{4}|\d{1,2}/\d{4}|\w+\s+\d{4})] *)
Definition experience_date_pattern : regex :=
  Grp (Alt (Rep 4 (Chr digit))
      (Alt (Cat [Between 1 2 (Chr digit); Lit "/"; Rep 4 (Chr digit)])
           (Cat [Plus (Chr word); Plus (Chr space); Rep 4 (Chr digit)]))).

(** The body of [for entry in entries]: [None] where the loop [continue]s. *)
Definition experience_entry (entry : string) : option Experience.t :=
  if negb (nonempty (strip entry)) then None
  else
    let lines := stripped_lines entry in
    if (length lines <? 2)%nat then None
    else
      let first_line := nth 0 lines EmptyString in
      let dates := findall experience_date_pattern entry in
      let start_date := nth_error dates 0 in
      let end_date := nth_error dates 1 in
      let is_current :=
        contains "present" (lower entry) || contains "current" (lower entry) in
      let '(company, position) :=
        if contains "|" first_line then
          let parts := split "|" first_line in
          (Some (strip (nth 0 parts EmptyString)),
           Some (strip (nth 1 parts EmptyString)))
        else if contains "," first_line then
          let parts := split "," first_line in
          (Some (strip (nth 1 parts EmptyString)),
           Some (strip (nth 0 parts EmptyString)))
        else (None, Some first_line) in
      let description :=
        if (1 <? length lines)%nat then join nl (tl lines) else EmptyString in
      Some {| Experience.company := company;
              Experience.position := position;
              Experience.start_date := start_date;
              Experience.end_date := end_date;
              Experience.is_current := Some is_current;
              Experience.description := Some description;
              Experience.achievements := [] |}.

Definition _extract_experience (sections : gmap string string)
  : list Experience.t :=
  let experience_text := get sections "experience" in
  if negb (nonempty experience_text) then []
  else omap experience_entry (Re.split entry_boundary experience_text).

(** *** [_extract_education] *)

Definition any_keyword (keywords : list string) (line : string) : bool :=
  existsb (fun keyword => contains keyword (lower line)) keywords.

(** [[line.strip() for ...]] survivors of [if not entry.strip(): continue]. *)
Definition nonblank (entry : string) : bool := nonempty (strip entry).

(** The variables [institution], [degree], [field_of_study] after one more
    line of [for line in lines]. *)
Definition education_line
    (st : option string * option string * option string) (line : string)
  : option string * option string * option string :=
  let '(institution, degree, field_of_study) := st in
  if any_keyword ["university"; "college"; "institute"; "school"] line
  then (Some line, degree, field_of_study)
  else if any_keyword ["bachelor"; "master"; "phd"; "degree";
                       "bs"; "ms"; "ba"; "ma"] line
  then
    if contains "in" (lower line) then
      let parts := split "in" (lower line) in
      (institution,
       Some (strip (nth 0 parts EmptyString)),
       if (1 <? length parts)%nat
       then Some (strip (nth 1 parts EmptyString)) else None)
    else (institution, Some line, field_of_study)
  else st.

(** [(\d{4})] *)
Definition year_pattern : regex := Grp (Rep 4 (Chr digit)).

Definition education_entry (entry : string) : Education.t :=
  let lines := stripped_lines entry in
  let dates := findall year_pattern entry in
  let graduation_date :=
    match dates with [] => None | _ => Some (List.last dates EmptyString) end in
  let '(institution, degree, field_of_study) :=
    fold_left education_line lines (None, None, None) in
  {| Education.institution := institution;
     Education.degree := degree;
     Education.field_of_study := field_of_study;
     Education.graduation_date := graduation_date;
     Education.gpa := None |}.

Definition _extract_education (sections : gmap string string)
  : list Education.t :=
  let education_text := get sections "education" in
  if negb (nonempty education_text) then []
  else
    map education_entry
        (filter (fun entry => nonblank entry = true)
                (split (nl ++ nl) education_text)).

(** *** [_extract_skills] *)

(** [[,;•\n]]; the bullet is above code point 255 and so never occurs in a
    text of the model. *)
Definition skill_separator : regex :=
  Chr (fun c => one_of ",;" c || Ascii.eqb c "010").

Definition _extract_skills (sections : gmap string string) : list Skill.t :=
  let skills_text := get sections "skills" in
  if negb (nonempty skills_text) then []
  else
    let skills_raw := Re.split skill_separator skills_text in
    let skills_cleaned :=
      map strip (filter (fun skill => nonempty (strip skill) = true)
                        skills_raw) in
    [{| Skill.category := Some "Technical Skills";
        Skill.skills := skills_cleaned |}].

(** *** [_extract_certifications] *)

(** [\d{4}|\d{1,2}/\d{4}], and the same inside a group. *)
Definition cert_date : regex :=
  Alt (Rep 4 (Chr digit))
      (Cat [Between 1 2 (Chr digit); Lit "/"; Rep 4 (Chr digit)]).
Definition cert_date_pattern : regex := Grp cert_date.

Definition certification_line (line : string) : Certification.t :=
  let dates := findall cert_date_pattern line in
  let date := first_or_None dates in
  let name := strip (sub_empty cert_date line) in
  {| Certification.name := Some name;
     Certification.issuer := None;
     Certification.date := date;
     Certification.credential_id := None |}.

Definition _extract_certifications (sections : gmap string string)
  : list Certification.t :=
  let cert_text := get sections "certifications" in
  if negb (nonempty cert_text) then []
  else map certification_line (stripped_lines cert_text).

(** *** [_extract_projects] *)

(** [Technologies?:?\s*([^\n]+)] with [re.IGNORECASE] *)
Definition tech_pattern : regex :=
  Cat [StrI "Technologie"; Opt (LitI "s"); Opt (Lit ":"); Star (Chr space);
       Grp (Plus (Chr (fun c => negb (Ascii.eqb c "010"))))].

Definition project_entry (entry : string) : Project.t :=
  let lines := stripped_lines entry in
  let name := List.head lines in
  let description :=
    if (1 <? length lines)%nat then join nl (tl lines) else EmptyString in
  let technologies :=
    match search tech_pattern description with
    | Some tech_match =>
        map strip
            (split "," (match group1 tech_match with
                        | Some x => x
                        | None => EmptyString
                        end))
    | None => []
    end in
  {| Project.name := name;
     Project.description := Some description;
     Project.technologies := technologies;
     Project.url := None;
     Project.start_date := None;
     Project.end_date := None |}.

Definition _extract_projects (sections : gmap string string)
  : list Project.t :=
  let projects_text := get sections "projects" in
  if negb (nonempty projects_text) then []
  else
    map project_entry
        (filter (fun entry => nonblank entry = true)
                (split (nl ++ nl) projects_text)).

(** *** [_extract_languages] *)

(** [[()]] *)
Definition paren : regex := Chr (one_of "()").

Definition language_line (line : string) : Language.t :=
  if contains ":" line || contains "(" line then
    let parts :=
      if contains ":" line then split ":" line else Re.split paren line in
    {| Language.language := Some (strip (nth 0 parts EmptyString));
       Language.proficiency :=
         if (1 <? length parts)%nat
         then Some (strip (nth 1 parts EmptyString)) else None |}
  else {| Language.language := Some line; Language.proficiency := None |}.

Definition _extract_languages (sections : gmap string string)
  : list Language.t :=
  let lang_text := get sections "languages" in
  if negb (nonempty lang_text) then []
  else map language_line (stripped_lines lang_text).

(** *** [_calculate_confidence] *)

(** [min(x, 1.0)]: the built-in keeps its first argument unless the second
    is smaller. *)
Definition min_1 (x : float) : float :=
  if (1.0 <? x)%float then 1.0%float else x.

(** [if cond: score += w] *)
Definition add_if (cond : bool) (w : float) (score : float) : float :=
  if cond then (score + w)%float else score.

(** The local [score] when the function reaches its [return]. *)
Definition score_of (parsed_resume : ParsedResume.t) : float :=
  let info := ParsedResume.personal_info parsed_resume in
  let score := 0.0%float in
  let score := add_if (truthy (PersonalInfo.full_name info)) 15 score in
  let score := add_if (truthy (PersonalInfo.email info)) 15 score in
  let score := add_if (truthy (PersonalInfo.phone info)) 10 score in
  let score := add_if (truthy_list (ParsedResume.experience parsed_resume)) 20 score in
  let score := add_if (truthy_list (ParsedResume.education parsed_resume)) 15 score in
  let score := add_if (truthy_list (ParsedResume.skills parsed_resume)) 15 score in
  let score := add_if (truthy (ParsedResume.summary parsed_resume)) 5 score in
  let score := add_if (truthy_list (ParsedResume.certifications parsed_resume)) 2.5 score in
  let score := add_if (truthy_list (ParsedResume.projects parsed_resume)) 2.5 score in
  score.

Definition max_score : float := 100.0%float.

Definition _calculate_confidence (parsed_resume : ParsedResume.t)
    (original_text : string) : float :=
  min_1 (score_of parsed_resume / max_score)%float.

(** *** [parse] *)

Definition parse (W : World) (text : string)
  : exn + (ParsedResume.t * float) :=
  let sections := _split_into_sections text in
  match _extract_personal_info W text sections with
  | inl e => inl e
  | inr personal_info =>
      let parsed_resume :=
        {| ParsedResume.personal_info := personal_info;
           ParsedResume.summary := _extract_summary sections;
           ParsedResume.experience := _extract_experience sections;
           ParsedResume.education := _extract_education sections;
           ParsedResume.skills := _extract_skills sections;
           ParsedResume.certifications := _extract_certifications sections;
           ParsedResume.projects := _extract_projects sections;
           ParsedResume.languages := _extract_languages sections;
           ParsedResume.confidence_score := Some 0%float;
           ParsedResume.parsing_method := "rule_based";
           ParsedResume.processing_time := 0%float |} in
      let confidence := _calculate_confidence parsed_resume text in
      inr (ParsedResume.set_confidence_score (Some confidence) parsed_resume,
           confidence)
  end.

End RuleBasedParser.

(* ===================================================================== *)
(** ** [app/config.py] *)
(* ===================================================================== *)

(** The values the class body assigns; an override of a field through the
    environment is not modelled. *)
Module settings.
Definition MAX_FILE_SIZE : N := (10 * 1024 * 1024)%N.
Definition SUPPORTED_FORMATS : list string :=
  ["pdf"; "docx"; "doc"; "txt"; "png"; "jpg"; "jpeg"].
Definition RULE_CONFIDENCE_THRESHOLD : float := 0.85%float.
End settings.

(* ===================================================================== *)
(** ** Code that may raise *)
(* ===================================================================== *)

Module Raise.
Definition bind {A B : Type} (c : exn + A) (k : A -> exn + B) : exn + B :=
  match c with inl e => inl e | inr a => k a end.

(** [try: body / except Exception as e: handler(e)] *)
Definition try_except {A : Type} (body : exn + A) (handler : exn -> exn + A)
  : exn + A :=
  match body with inl e => handler e | inr a => inr a end.
End Raise.

Declare Scope raise_scope.
Delimit Scope raise_scope with raise.
Notation "'let*' x ':=' c 'in' k" := (Raise.bind c (fun x => k))
  (at level 10, x pattern, c at level 100, k at level 200) : raise_scope.

(* ===================================================================== *)
(** ** [app/services/llm_parser.py] *)
(* ===================================================================== *)

Module LLMParser.
Import Py.
Local Open Scope raise_scope.

(** [self.openai_client] and [self.anthropic_client] are [None] exactly
    when the key is empty; the tests below are their truthiness. *)
Definition openai_client (W : World) : bool := nonempty (OPENAI_API_KEY W).
Definition anthropic_client (W : World) : bool :=
  nonempty (ANTHROPIC_API_KEY W).

Definition _create_parsing_prompt (text : string) : string :=
  "Please parse the following resume text and extract all relevant information according to the JSON schema provided in the system prompt."
  ++ nl ++ nl ++ "Resume Text:" ++ nl ++ text ++ nl ++ nl
  ++ "Return only the JSON object, no additional text or explanation.".

Definition _convert_to_pydantic (W : World) (data : json) : ParsedResume.t :=
  match model_validate W data with
  | Some r => r
  | None => ParsedResume.default
  end.

Definition add_if (cond : bool) (w : float) (score : float) : float :=
  if cond then (score + w)%float else score.

(** The local [score] when the body of [_calculate_llm_confidence] ends. *)
Definition score_of (parsed_resume : ParsedResume.t) : float :=
  let info := ParsedResume.personal_info parsed_resume in
  let score := 0.0%float in
  let score := add_if (truthy (PersonalInfo.full_name info)) 0.2 score in
  let score := add_if (truthy (PersonalInfo.email info)) 0.15 score in
  let score := add_if (truthy (PersonalInfo.phone info)) 0.1 score in
  let score := add_if (truthy_list (ParsedResume.experience parsed_resume)) 0.25 score in
  let score := add_if (truthy_list (ParsedResume.education parsed_resume)) 0.15 score in
  let score := add_if (truthy_list (ParsedResume.skills parsed_resume)) 0.1 score in
  let score := add_if (truthy (ParsedResume.summary parsed_resume)) 0.05 score in
  score.

(** The body ends after the last [score += 0.05] without a [return], so the
    call evaluates to [None] whatever [score] holds. *)
Definition _calculate_llm_confidence (parsed_resume : ParsedResume.t)
  : option float :=
  let score := score_of parsed_resume in
  None.

(** The statements after the provider's answer was decoded, shared by both
    providers up to the method tag. *)
Definition finish (W : World) (method : string) (result : json)
  : ParsedResume.t * option float :=
  let parsed_resume := _convert_to_pydantic W result in
  let parsed_resume := ParsedResume.set_parsing_method method parsed_resume in
  let confidence := _calculate_llm_confidence parsed_resume in
  let parsed_resume :=
    ParsedResume.set_confidence_score confidence parsed_resume in
  (parsed_resume, confidence).

Definition _parse_with_openai (W : World) (text : string)
  : exn + (ParsedResume.t * option float) :=
  let prompt := _create_parsing_prompt text in
  Raise.try_except
    (let* content := openai_create W prompt in
     let* result := json_loads W content in
     inr (finish W "llm_openai" result))
    (fun e => inl (Exception ("OpenAI parsing error: " ++ str_exn e))).

Definition _parse_with_anthropic (W : World) (text : string)
  : exn + (ParsedResume.t * option float) :=
  let prompt := _create_parsing_prompt text in
  Raise.try_except
    (let* content := anthropic_create W prompt in
     let json_start := find "{" content in
     let json_end := (rfind "}" content + 1)%Z in
     let json_content := slice json_start json_end content in
     let* result := json_loads W json_content in
     inr (finish W "llm_anthropic" result))
    (fun e => inl (Exception ("Anthropic parsing error: " ++ str_exn e))).

Definition parse (W : World) (text : string) (provider : string)
  : exn + (ParsedResume.t * option float) :=
  Raise.try_except
    (if String.eqb provider "openai" && openai_client W
     then _parse_with_openai W text
     else if String.eqb provider "anthropic" && anthropic_client W
     then _parse_with_anthropic W text
     else inl (ValueError ("Provider " ++ provider
                           ++ " not available or not configured")))
    (fun e => inl (Exception ("LLM parsing failed: " ++ str_exn e))).

End LLMParser.

(* ===================================================================== *)
(** ** [app/api/routes.py]: the [/parse] route *)
(* ===================================================================== *)

Module routes.
Import Py.

(** What the route does to the outside, in order. *)
Inductive event : Type :=
| CallExtractText (filename : string)
| CallRuleParse (text : string)
| CallLLMParse (text provider : string)
| Printed (msg : string).

(** A computation of the route: it may raise, and it extends the log. *)
Definition M (A : Type) : Type := list event -> (exn + A) * list event.

Definition ret {A : Type} (a : A) : M A := fun log => (inr a, log).
Definition raise {A : Type} (e : exn) : M A := fun log => (inl e, log).
Definition bind {A B : Type} (c : M A) (k : A -> M B) : M B :=
  fun log =>
    match c log with
    | (inl e, log') => (inl e, log')
    | (inr a, log') => k a log'
    end.
(** An evaluation that may raise and touches nothing outside. *)
Definition lift {A : Type} (outcome : exn + A) : M A :=
  fun log => (outcome, log).
(** A call to a collaborator: logged, then its outcome. *)
Definition call {A : Type} (ev : event) (outcome : exn + A) : M A :=
  fun log => (outcome, (log ++ [ev])%list).
Definition print (msg : string) : M unit :=
  fun log => (inr tt, (log ++ [Printed msg])%list).
(** [try: body / except Exception as e: handler(e)] *)
Definition try_except {A : Type} (body : M A) (handler : exn -> M A) : M A :=
  fun log =>
    match body log with
    | (inl e, log') => handler e log'
    | (inr a, log') => (inr a, log')
    end.

Declare Scope route_scope.
Delimit Scope route_scope with route.
Notation "'let*' x ':=' c 'in' k" := (bind c (fun x => k))
  (at level 10, x pattern, c at level 100, k at level 200) : route_scope.
Local Open Scope route_scope.

(** [llm_confidence > confidence]: ordering [None] against a float raises. *)
Definition py_gt (llm_confidence : option float) (confidence : float)
  : exn + bool :=
  match llm_confidence with
  | Some x => inr (confidence <? x)%float
  | None =>
      inl (TypeError
             "'>' not supported between instances of 'NoneType' and 'float'")
  end.

Section Route.
Variable W : World.
(** [llm_parser.parse], the module-level collaborator of the route. *)
Variable llm_parser_parse :
  string -> string -> exn + (ParsedResume.t * option float).

(** Lines 231-237: the fallback block, which rebinds [parsed_resume]. *)
Definition llm_fallback (text : string) (llm_provider : string)
    (use_llm_fallback : bool) (parsed_resume : ParsedResume.t)
    (confidence : float) : M ParsedResume.t :=
  if (confidence <? settings.RULE_CONFIDENCE_THRESHOLD)%float
     && use_llm_fallback
  then
    try_except
      (let* (llm_resume, llm_confidence) :=
         call (CallLLMParse text llm_provider)
              (llm_parser_parse text llm_provider) in
       let* b := lift (py_gt llm_confidence confidence) in
       ret (if b : bool then llm_resume else parsed_resume))
      (fun e =>
         let* _ := print ("LLM fallback failed: " ++ str_exn e) in
         ret parsed_resume)
  else ret parsed_resume.

(** The body of the outer [try]. *)
Definition parse_resume_sync_body (file : UploadFile)
    (use_llm_fallback : bool) (llm_provider : string)
  : M ParseResponse.t :=
  if negb (truthy (filename file))
  then raise (HTTPException 400 "No file provided")
  else
    let name := match filename file with Some n => n | None => "" end in
    let file_extension := lower (last_item (split "." name)) in
    if negb (mem file_extension settings.SUPPORTED_FORMATS)
    then raise (HTTPException 400
      "Unsupported file format. Supported: ['pdf', 'docx', 'doc', 'txt', 'png', 'jpg', 'jpeg']")
    else
      let file_content := content file in
      if (settings.MAX_FILE_SIZE <? N.of_nat (len file_content))%N
      then raise (HTTPException 413 "File too large")
      else
        let* (text, extraction_method) :=
          call (CallExtractText name) (extract_text W file_content name) in
        if negb (nonempty (strip text))
        then raise (HTTPException 400
                      "No text could be extracted from file")
        else
          let* (parsed_resume, confidence) :=
            call (CallRuleParse text) (RuleBasedParser.parse W text) in
          let* parsed_resume :=
            llm_fallback text llm_provider use_llm_fallback
                         parsed_resume confidence in
          let parsed_resume :=
            ParsedResume.set_processing_time (elapsed W) parsed_resume in
          ret {| ParseResponse.success := true;
                 ParseResponse.data := Some parsed_resume;
                 ParseResponse.error := None;
                 ParseResponse.job_id := None |}.

(** [except HTTPException: raise], then
    [except Exception as e: return ParseResponse(success=False, ...)]. *)
Definition parse_resume_sync_with (file : UploadFile)
    (use_llm_fallback : bool) (llm_provider : string)
  : M ParseResponse.t :=
  try_except
    (parse_resume_sync_body file use_llm_fallback llm_provider)
    (fun e =>
       if is_HTTPException e then raise e
       else ret {| ParseResponse.success := false;
                   ParseResponse.data := None;
                   ParseResponse.error :=
                     Some ("Processing failed: " ++ str_exn e);
                   ParseResponse.job_id := None |}).
End Route.

(** The route with the repository's own [LLMParser] behind it. *)
Definition parse_resume_sync (W : World) (file : UploadFile)
    (use_llm_fallback : bool) (llm_provider : string) : M ParseResponse.t :=
  parse_resume_sync_with W (LLMParser.parse W) file use_llm_fallback
                         llm_provider.

End routes.

(* ===================================================================== *)
(** ** Vocabulary of the properties *)
(* ===================================================================== *)

Import Py.

(** *** Lines of a text, as the segmenter sees them *)

Inductive line_kind : Type :=
| Blank
| Header (section : string)
| Content (line : string).

(** What one iteration of the segmenter's loop makes of a raw line. *)
Definition classify (line0 : string) : line_kind :=
  let line := strip line0 in
  if nonempty line then
    match RuleBasedParser.section_found line with
    | Some section => Header section
    | None => Content line
    end
  else Blank.

(** The content lines from the start of [lines] up to the next header. *)
Fixpoint leading_content (lines : list string) : list string :=
  match lines with
  | [] => []
  | l :: lines' =>
      match classify l with
      | Blank => leading_content lines'
      | Content c => c :: leading_content lines'
      | Header _ => []
      end
  end.

Definition is_header_for (section : string) (line0 : string) : bool :=
  match classify line0 with
  | Header s => String.eqb s section
  | _ => false
  end.

Fixpoint mem_char (c : ascii) (s : string) : bool :=
  match s with
  | EmptyString => false
  | String d s' => Ascii.eqb c d || mem_char c s'
  end.

Fixpoint all_space (s : string) : bool :=
  match s with
  | EmptyString => true
  | String c s' => isspace c && all_space s'
  end.

(** A line as the segmenter stores it: not empty, equal to its own [strip],
    without a newline. *)
Definition stored_line (l : string) : Prop :=
  nonempty l = true /\ strip l = l /\ mem_char "010" l = false.

(** A value of the segmenter's map: a newline-join of one or more stored
    lines. *)
Definition stored_blob (v : string) : Prop :=
  exists ls, ls <> [] /\ Forall stored_line ls /\ v = join nl ls.

(** A string that starts with a character that is no whitespace. *)
Definition starts_clean (s : string) : Prop :=
  match s with
  | EmptyString => False
  | String c _ => isspace c = false
  end.

(** The invariant of the segmenter's loop: every value of the map is a
    stored blob, and the lines accumulated so far are stored lines. *)
Definition seg_inv (st : RuleBasedParser.seg_state) : Prop :=
  (forall k v, RuleBasedParser.sections st !! k = Some v -> stored_blob v)
  /\ Forall stored_line (RuleBasedParser.current_content st).

(** *** The route *)

Definition is_llm_call (ev : routes.event) : bool :=
  match ev with routes.CallLLMParse _ _ => true | _ => false end.
Definition is_rule_call (ev : routes.event) : bool :=
  match ev with routes.CallRuleParse _ => true | _ => false end.

(** How often the log records a call of the generative extractor, and of
    the rule-based one. *)
Definition llm_calls (log : list routes.event) : nat :=
  length (List.filter is_llm_call log).
Definition rule_calls (log : list routes.event) : nat :=
  length (List.filter is_rule_call log).

(** The request passes the gates of the route and the bridge hands back
    [text]: a file name with a supported extension, a body within the size
    limit, and an extraction that returns. *)
Definition reaches_core (W : World) (file : UploadFile) (name text : string)
  : Prop :=
  filename file = Some name /\ nonempty name = true
  /\ mem (lower (last_item (split "." name))) settings.SUPPORTED_FORMATS = true
  /\ (settings.MAX_FILE_SIZE <? N.of_nat (len (content file)))%N = false
  /\ exists extraction_method,
       extract_text W (content file) name = inr (text, extraction_method).

(** [ParseResponse(success=True, data=parsed_resume)] after the processing
    time was set. *)
Definition success_response (W : World) (parsed_resume : ParsedResume.t)
  : ParseResponse.t :=
  {| ParseResponse.success := true;
     ParseResponse.data :=
       Some (ParsedResume.set_processing_time (elapsed W) parsed_resume);
     ParseResponse.error := None;
     ParseResponse.job_id := None |}.

(** The record the fallback block of the route leaves in [parsed_resume],
    given the rule-based record [r1] with its confidence [c1]: the
    generative record only when the route escalates, the generative call
    returns a float confidence and that confidence is strictly greater. *)
Definition merged
    (llm : string -> string -> exn + (ParsedResume.t * option float))
    (text llm_provider : string) (use_llm_fallback : bool)
    (r1 : ParsedResume.t) (c1 : float) : ParsedResume.t :=
  if (c1 <? settings.RULE_CONFIDENCE_THRESHOLD)%float && use_llm_fallback
  then match llm text llm_provider with
       | inr (r2, Some c2) => if (c1 <? c2)%float then r2 else r1
       | _ => r1
       end
  else r1.

(** What the fallback block adds to the log: the call of the generative
    extractor when the route escalates, then the line it prints when the
    call or the comparison raised. *)
Definition fallback_events
    (llm : string -> string -> exn + (ParsedResume.t * option float))
    (text llm_provider : string) (use_llm_fallback : bool) (c1 : float)
  : list routes.event :=
  if (c1 <? settings.RULE_CONFIDENCE_THRESHOLD)%float && use_llm_fallback
  then routes.CallLLMParse text llm_provider ::
       match llm text llm_provider with
       | inr (_, Some _) => []
       | inr (_, None) =>
           [routes.Printed
              ("LLM fallback failed: "
               ++ "'>' not supported between instances of 'NoneType' and 'float'")]
       | inl e => [routes.Printed ("LLM fallback failed: " ++ str_exn e)]
       end
  else [].

Definition no_text_error : exn :=
  HTTPException 400 "No text could be extracted from file".

(** *** Concrete inputs *)

Definition scenario_A : string :=
  "John Smith" ++ nl ++ "john@x.com" ++ nl ++ "555-123-4567" ++ nl ++ nl
  ++ "EXPERIENCE" ++ nl ++ "Senior Dev | Acme Corp" ++ nl
  ++ "2019 - Present" ++ nl ++ "Built things.".

(** What the rule-based parser makes of Scenario A. *)
Definition scenario_A_record : ParsedResume.t :=
  {| ParsedResume.personal_info :=
       {| PersonalInfo.full_name := Some "John Smith";
          PersonalInfo.email := Some "john@x.com";
          PersonalInfo.phone := Some "";
          PersonalInfo.address := None; PersonalInfo.linkedin := None;
          PersonalInfo.github := None; PersonalInfo.portfolio := None |};
     ParsedResume.summary := None;
     ParsedResume.experience :=
       [{| Experience.company := Some "Senior Dev";
           Experience.position := Some "Acme Corp";
           Experience.start_date := Some ("Corp" ++ nl ++ "2019");
           Experience.end_date := None;
           Experience.is_current := Some true;
           Experience.description :=
             Some ("2019 - Present" ++ nl ++ "Built things.");
           Experience.achievements := [] |}];
     ParsedResume.education := []; ParsedResume.skills := [];
     ParsedResume.certifications := []; ParsedResume.projects := [];
     ParsedResume.languages := [];
     ParsedResume.confidence_score := Some 0.5%float;
     ParsedResume.parsing_method := "rule_based";
     ParsedResume.processing_time := 0%float |}.

(** A record with every scored field populated. *)
Definition fully_populated : ParsedResume.t :=
  {| ParsedResume.personal_info :=
       {| PersonalInfo.full_name := Some "John Smith";
          PersonalInfo.email := Some "john@x.com";
          PersonalInfo.phone := Some "555-123-4567";
          PersonalInfo.address := None; PersonalInfo.linkedin := None;
          PersonalInfo.github := None; PersonalInfo.portfolio := None |};
     ParsedResume.summary := Some "Engineer.";
     ParsedResume.experience :=
       [{| Experience.company := Some "Acme Corp";
           Experience.position := Some "Senior Dev";
           Experience.start_date := Some "2019"; Experience.end_date := None;
           Experience.is_current := Some true;
           Experience.description := Some "Built things.";
           Experience.achievements := [] |}];
     ParsedResume.education :=
       [{| Education.institution := Some "State University";
           Education.degree := Some "BS"; Education.field_of_study := None;
           Education.graduation_date := Some "2015"; Education.gpa := None |}];
     ParsedResume.skills :=
       [{| Skill.category := Some "Technical Skills";
           Skill.skills := ["Python"] |}];
     ParsedResume.certifications :=
       [{| Certification.name := Some "AWS"; Certification.issuer := None;
           Certification.date := Some "2020";
           Certification.credential_id := None |}];
     ParsedResume.projects :=
       [{| Project.name := Some "Parser"; Project.description := Some "";
           Project.technologies := []; Project.url := None;
           Project.start_date := None; Project.end_date := None |}];
     ParsedResume.languages := [];
     ParsedResume.confidence_score := Some 0%float;
     ParsedResume.parsing_method := "unknown";
     ParsedResume.processing_time := 0%float |}.

(** A world in which every address is accepted unchanged, no provider is
    configured and the bridge decodes the upload as plain text. *)
Definition offline_world : World :=
  {| OPENAI_API_KEY := ""; ANTHROPIC_API_KEY := "";
     validate_email := fun s => Some s;
     model_validate := fun _ => None;
     json_loads := fun _ => inl (LibraryError "JSONDecodeError" "Expecting value");
     extract_text := fun file_content _ => inr (file_content, "text");
     openai_create := fun _ => inl (LibraryError "APITimeoutError" "Request timed out.");
     anthropic_create := fun _ => inl (LibraryError "APITimeoutError" "Request timed out.");
     elapsed := 0.25%float |}.

(** The same world with the first provider configured and answering with a
    payload that decodes and validates to [fully_populated]. *)
Definition online_world : World :=
  {| OPENAI_API_KEY := "sk-test"; ANTHROPIC_API_KEY := "";
     validate_email := fun s => Some s;
     model_validate := fun _ => Some fully_populated;
     json_loads := fun _ => inr (JObj []);
     extract_text := fun file_content _ => inr (file_content, "text");
     openai_create := fun _ => inr "{}";
     anthropic_create := fun _ => inl (LibraryError "APITimeoutError" "Request timed out.");
     elapsed := 0.25%float |}.

Definition upload (text : string) : UploadFile :=
  {| filename := Some "resume.txt"; content := text |}.

(** A generative extractor that returns [fully_populated] with the given
    confidence, and one that always fails. *)
Definition llm_returning (c : float)
  : string -> string -> exn + (ParsedResume.t * option float) :=
  fun _ _ => inr (fully_populated, Some c).
Definition llm_failing (e : exn)
  : string -> string -> exn + (ParsedResume.t * option float) :=
  fun _ _ => inl e.

(** The two weight tables as the decimal fractions the source writes. *)
Definition rule_weights : list Q :=
  [15 # 100; 15 # 100; 10 # 100; 20 # 100; 15 # 100; 15 # 100; 5 # 100;
   25 # 1000; 25 # 1000]%Q.
Definition generative_weights : list Q :=
  [20 # 100; 15 # 100; 10 # 100; 25 # 100; 15 # 100; 10 # 100; 5 # 100]%Q.
Definition total (ws : list Q) : Q := fold_right Qplus 0%Q ws.

(** *** The claims that fail as the specification states them *)

(** Scenario A as the specification states it. *)
Definition scenario_A_as_stated (W : World) : Prop :=
  exists r c e,
    RuleBasedParser.parse W scenario_A = inr (r, c)
    /\ PersonalInfo.full_name (ParsedResume.personal_info r) = Some "John Smith"
    /\ PersonalInfo.email (ParsedResume.personal_info r) = Some "john@x.com"
    /\ truthy (PersonalInfo.phone (ParsedResume.personal_info r)) = true
    /\ ParsedResume.experience r = [e]
    /\ Experience.position e = Some "Senior Dev"
    /\ Experience.company e = Some "Acme Corp"
    /\ Experience.is_current e = Some true.

(** Scenario E as the specification states it: whenever a section's header
    occurs at [h1] and again, for the last time, at [h2], with content in
    between, the map holds for that section the content that follows [h2]
    (read with [sections.get(section, '')], so that holding nothing counts
    as holding the empty content). *)
Definition duplicate_header_overwrites (text : string) : Prop :=
  forall (pre : list string) (h1 : string) (mid : list string) (h2 : string)
         (post : list string) (section : string),
    split nl text = (pre ++ h1 :: mid ++ h2 :: post)%list ->
    classify h1 = Header section ->
    classify h2 = Header section ->
    leading_content mid <> [] ->
    forallb (fun l => negb (is_header_for section l)) post = true ->
    RuleBasedParser.get (RuleBasedParser._split_into_sections text) section
    = join nl (leading_content post).

(** Two education entries and two projects, each pair parted by a blank
    line. *)
Definition two_entries_each : string :=
  "Education" ++ nl ++ "State University" ++ nl ++ nl ++ "BS in CS 2015"
  ++ nl ++ "Projects" ++ nl ++ "Parser" ++ nl ++ nl ++ "Compiler".

Definition scenario_E_short : string := "Skills" ++ nl ++ "A" ++ nl ++ "Skills".
Definition scenario_E : string :=
  "Skills" ++ nl ++ "Python" ++ nl ++ "Education" ++ nl ++ "State University"
  ++ nl ++ "Skills" ++ nl ++ "Rocq".

(* ===================================================================== *)
(** ** Further vocabulary *)
(* ===================================================================== *)

(** Which of the nine scored fields of a record are populated, in the order
    in which [_calculate_confidence] tests them: name, email, phone,
    experience, education, skills, summary, certifications, projects. *)
Definition scored_fields (r : ParsedResume.t) : list bool :=
  let info := ParsedResume.personal_info r in
  [truthy (PersonalInfo.full_name info);
   truthy (PersonalInfo.email info);
   truthy (PersonalInfo.phone info);
   truthy_list (ParsedResume.experience r);
   truthy_list (ParsedResume.education r);
   truthy_list (ParsedResume.skills r);
   truthy (ParsedResume.summary r);
   truthy_list (ParsedResume.certifications r);
   truthy_list (ParsedResume.projects r)].

(** The rule-based confidence as a function of the nine flags. *)
Definition confidence_of_flags (flags : list bool) : float :=
  match flags with
  | [b1; b2; b3; b4; b5; b6; b7; b8; b9] =>
      RuleBasedParser.min_1
        (RuleBasedParser.add_if b9 2.5 (RuleBasedParser.add_if b8 2.5
          (RuleBasedParser.add_if b7 5 (RuleBasedParser.add_if b6 15
            (RuleBasedParser.add_if b5 15 (RuleBasedParser.add_if b4 20
              (RuleBasedParser.add_if b3 10 (RuleBasedParser.add_if b2 15
                (RuleBasedParser.add_if b1 15 0.0%float))))))))
         / RuleBasedParser.max_score)%float
  | _ => 0%float
  end.

(** All lists of [n] booleans. *)
Fixpoint bool_lists (n : nat) : list (list bool) :=
  match n with
  | O => [[]]
  | S n' => flat_map (fun l => [true :: l; false :: l]) (bool_lists n')
  end.

(** [a] has no field populated that [b] lacks. *)
Fixpoint flags_le (a b : list bool) : bool :=
  match a, b with
  | [], [] => true
  | x :: a', y :: b' => implb x y && flags_le a' b'
  | _, _ => false
  end.

(** The check behind the monotonicity of the score, over all pairs. *)
Definition confidence_monotone_on (all : list (list bool)) : bool :=
  forallb (fun a =>
    forallb (fun b =>
      implb (flags_le a b)
            (confidence_of_flags a <=? confidence_of_flags b)%float) all) all.

(** [ParseResponse(success=False, error=f"Processing failed: {str(e)}")]. *)
Definition failure_response (e : exn) : ParseResponse.t :=
  {| ParseResponse.success := false;
     ParseResponse.data := None;
     ParseResponse.error := Some ("Processing failed: " ++ str_exn e);
     ParseResponse.job_id := None |}.

(** The request passes the three gates in front of the extraction: a file
    name, a supported extension, a body within the size limit. *)
Definition passes_gates (file : UploadFile) (name : string) : Prop :=
  filename file = Some name /\ nonempty name = true
  /\ mem (lower (last_item (split "." name))) settings.SUPPORTED_FORMATS = true
  /\ (settings.MAX_FILE_SIZE <? N.of_nat (len (content file)))%N = false.

(** A world whose extraction bridge fails on every file. *)
Definition broken_bridge_world : World :=
  {| OPENAI_API_KEY := ""; ANTHROPIC_API_KEY := "";
     validate_email := fun s => Some s;
     model_validate := fun _ => None;
     json_loads := fun _ => inl (LibraryError "JSONDecodeError" "Expecting value");
     extract_text := fun _ _ =>
       inl (Exception "Text extraction failed: cannot open document");
     openai_create := fun _ => inl (LibraryError "APITimeoutError" "Request timed out.");
     anthropic_create := fun _ => inl (LibraryError "APITimeoutError" "Request timed out.");
     elapsed := 0.25%float |}.

(** The provider named by the caller is one of the two and its client
    exists. *)
Definition provider_ready (W : World) (provider : string) : bool :=
  (String.eqb provider "openai" && LLMParser.openai_client W)
  || (String.eqb provider "anthropic" && LLMParser.anthropic_client W).

Definition provider_unavailable (provider : string) : exn :=
  Exception ("LLM parsing failed: " ++ "Provider " ++ provider
             ++ " not available or not configured").

(** A world in which only the second provider is configured; it wraps the
    payload in commentary. *)
Definition chatty_world : World :=
  {| OPENAI_API_KEY := ""; ANTHROPIC_API_KEY := "sk-ant-test";
     validate_email := fun s => Some s;
     model_validate := fun _ => Some fully_populated;
     json_loads := fun s =>
       if String.eqb s "{}" then inr (JObj [])
       else inl (LibraryError "JSONDecodeError" "Expecting value");
     extract_text := fun file_content _ => inr (file_content, "text");
     openai_create := fun _ => inr "{}";
     anthropic_create := fun _ => inr "Sure! {} Hope this helps.";
     elapsed := 0.25%float |}.

(** The keys the segmenter can write: the implicit bucket and the names of
    the dictionary. *)
Definition section_names : list string :=
  "header" :: map fst RuleBasedParser.section_keywords.

Definition is_header (line0 : string) : bool :=
  match classify line0 with Header _ => true | _ => false end.



(** A text without any header line. *)
Definition no_header_text : string :=
  "  Jane Roe " ++ nl ++ nl ++ "jane@roe.org" ++ nl ++ "Built many things.".



(** Some character of [s] satisfies [p]. *)
Fixpoint has_char (p : ascii -> bool) (s : string) : bool :=
  match s with
  | EmptyString => false
  | String c s' => p c || has_char p s'
  end.

(** The class [[,;\n]] of the skills separator. *)
Definition skill_separator_char (c : ascii) : bool :=
  Re.one_of ",;" c || Ascii.eqb c "010".

(** What every experience entry of the rule-based parser looks like. *)
Definition experience_shape (e : Experience.t) : Prop :=
  Experience.position e <> None
  /\ Experience.is_current e <> None
  /\ (exists d, Experience.description e = Some d /\ nonempty d = true)
  /\ Experience.achievements e = []
  /\ (Experience.start_date e = None -> Experience.end_date e = None).

(** A map with a skills section and a one-line experience section. *)
Definition sample_sections : gmap string string :=
  <["skills" := "Python, Rocq;  OCaml " ++ nl ++ ",, Lean"]>
    (<["experience" := "Senior Dev | Acme Corp"]> ∅).

(* ===================================================================== *)
(** ** [app/api/routes.py]: the asynchronous endpoints *)
(* ===================================================================== *)

Module routes_async.
Import routes.

Section Async.
(** [str(e)] for the [HTTPException] of the web framework, which depends on
    the framework's version. *)
Variable http_exception_str : Z -> string -> string.

Definition str_of (e : exn) : string :=
  match e with
  | HTTPException status_code detail => http_exception_str status_code detail
  | _ => str_exn e
  end.

(** The body of the [try]. After the three gates and the job id, the call
    [background_tasks.add_task(process_resume_async, ...)] has to evaluate
    the name [process_resume_async], which the module neither defines nor
    imports: the lookup raises [NameError] before [add_task] is entered. *)
Definition parse_resume_async_body (file : UploadFile)
    (use_llm_fallback : bool) (llm_provider : string) : M ParseResponse.t :=
  if negb (truthy (filename file))
  then raise (HTTPException 400 "No file provided")
  else
    let name := match filename file with Some n => n | None => "" end in
    let file_extension := lower (last_item (split "." name)) in
    if negb (mem file_extension settings.SUPPORTED_FORMATS)
    then raise (HTTPException 400
      "Unsupported file format. Supported: ['pdf', 'docx', 'doc', 'txt', 'png', 'jpg', 'jpeg']")
    else
      let file_content := content file in
      if (settings.MAX_FILE_SIZE <? N.of_nat (len file_content))%N
      then raise (HTTPException 413 "File too large")
      else
        raise (LibraryError "NameError"
                            "name 'process_resume_async' is not defined").

(** The only handler is [except Exception as e], which also takes the
    [HTTPException]s of the gates. *)
Definition parse_resume_async (file : UploadFile) (use_llm_fallback : bool)
    (llm_provider : string) : M ParseResponse.t :=
  try_except
    (parse_resume_async_body file use_llm_fallback llm_provider)
    (fun e =>
       ret {| ParseResponse.success := false;
              ParseResponse.data := None;
              ParseResponse.error :=
                Some ("Failed to queue job: " ++ str_of e);
              ParseResponse.job_id := None |}).

(** [get_job_status(job_id)]: the response model is [JobStatus], of which
    the endpoint never builds a value. *)
Definition get_job_status (job_id : string) : M unit :=
  raise (HTTPException 410 "Async job status tracking has been disabled").

End Async.
End routes_async.

(* ===================================================================== *)
(** ** [app/services/text_extractor.py]: the dispatch *)
(* ===================================================================== *)

Module TextExtractor.

(** The libraries behind the extractor and the three format-specific
    methods that wrap them, each a function of the file content. *)
Record Bridge : Type := {
  (** [magic.from_buffer(file_content, mime=True)]. *)
  magic_from_buffer : string -> exn + string;
  _extract_from_pdf : string -> exn + (string * string);
  _extract_from_docx : string -> exn + (string * string);
  _extract_from_image : string -> exn + (string * string);
  (** [file_content.decode('utf-8', errors='ignore')]. *)
  decode_utf8_ignore : string -> string }.

(** [filename.split('.')[-1].lower()]. *)
Definition extension (filename : string) : string :=
  lower (last_item (split "." filename)).

(** The bare [except:] turns any failure of the detection into the
    extension of the file name. *)
Definition _detect_file_type (B : Bridge) (file_content filename : string)
  : string :=
  match magic_from_buffer B file_content with
  | inr mime_type =>
      if String.eqb mime_type "application/pdf" then "pdf"
      else if mem mime_type
        ["application/vnd.openxmlformats-officedocument.wordprocessingml.document"]
      then "docx"
      else if mem mime_type ["application/msword"] then "doc"
      else if startswith "image/" mime_type then extension filename
      else if String.eqb mime_type "text/plain" then "txt"
      else extension filename
  | inl _ => extension filename
  end.

Definition extract_text (B : Bridge) (file_content filename : string)
  : exn + (string * string) :=
  Raise.try_except
    (let file_type := _detect_file_type B file_content filename in
     if String.eqb file_type "pdf" then _extract_from_pdf B file_content
     else if mem file_type ["docx"; "doc"]
     then _extract_from_docx B file_content
     else if mem file_type ["png"; "jpg"; "jpeg"]
     then _extract_from_image B file_content
     else if String.eqb file_type "txt"
     then inr (decode_utf8_ignore B file_content, "text")
     else inl (ValueError ("Unsupported file type: " ++ file_type)))
    (fun e => inl (Exception ("Text extraction failed: " ++ str_exn e))).

End TextExtractor.

(** [try: ... except Exception as e: raise Exception(prefix + str(e))]
    around an outcome. *)
Definition wrapped (prefix : string) {A : Type} (outcome : exn + A) : exn + A :=
  match outcome with
  | inl e => inl (Exception (prefix ++ str_exn e))
  | inr a => inr a
  end.

(** A bridge whose detection fails and whose format methods fail. *)
Definition failing_bridge : TextExtractor.Bridge :=
  {| TextExtractor.magic_from_buffer := fun _ =>
       inl (LibraryError "MagicException" "could not find any magic files");
     TextExtractor._extract_from_pdf := fun _ =>
       inl (Exception "PDF OCR extraction failed: cannot open document");
     TextExtractor._extract_from_docx := fun _ =>
       inl (Exception "DOCX extraction failed: not a zip file");
     TextExtractor._extract_from_image := fun _ =>
       inl (Exception "Image OCR extraction failed: cannot identify image");
     TextExtractor.decode_utf8_ignore := fun s => s |}.

(* ===================================================================== *)
(** ** Comparisons of floats *)
(* ===================================================================== *)

Section FloatOrder.
Local Open Scope float_scope.

Lemma SFcompare_antisym (x y : spec_float) (c : comparison) :
  SFcompare x y = Some c -> SFcompare y x = Some (CompOpp c).
Proof.
  destruct x as [sx | sx | | sx mx ex], y as [sy | sy | | sy my ey];
    simpl; try discriminate;
    try (destruct sx); try (destruct sy);
    intros [= <-]; try reflexivity.
  - rewrite (Z.compare_antisym ey ex).
    destruct (ey ?= ex)%Z; simpl; try reflexivity.
    rewrite CompOpp_involutive. f_equal.
    exact (Pos.compare_cont_antisym my mx Eq).
  - rewrite (Z.compare_antisym ey ex).
    destruct (ey ?= ex)%Z; simpl; try reflexivity.
    f_equal. symmetry. exact (Pos.compare_cont_antisym mx my Eq).
Qed.

(** [<] on floats is irreflexive: a tie is not "strictly greater". *)
Lemma ltb_irrefl (x : float) : (x <? x) = false.
Proof.
  rewrite ltb_spec. unfold SFltb.
  destruct (SFcompare (Prim2SF x) (Prim2SF x)) as [c|] eqn:E; [|reflexivity].
  pose proof (SFcompare_antisym _ _ _ E) as E'. rewrite E in E'.
  destruct c; try reflexivity. discriminate.
Qed.

(** [y <= x] excludes [x < y]. *)
Lemma leb_not_ltb (x y : float) : (y <=? x) = true -> (x <? y) = false.
Proof.
  rewrite leb_spec, ltb_spec. unfold SFleb, SFltb.
  destruct (SFcompare (Prim2SF y) (Prim2SF x)) as [c|] eqn:E; [|discriminate].
  rewrite (SFcompare_antisym _ _ _ E).
  destruct c; simpl; congruence.
Qed.
End FloatOrder.

(* ===================================================================== *)
(** ** The confidence scorers *)
(* ===================================================================== *)

(** The rule-based score only looks at which of nine fields are populated. *)
Lemma rule_score_cases (r : ParsedResume.t) :
  exists b1 b2 b3 b4 b5 b6 b7 b8 b9 : bool,
    RuleBasedParser.score_of r =
    RuleBasedParser.add_if b9 2.5 (RuleBasedParser.add_if b8 2.5
      (RuleBasedParser.add_if b7 5 (RuleBasedParser.add_if b6 15
        (RuleBasedParser.add_if b5 15 (RuleBasedParser.add_if b4 20
          (RuleBasedParser.add_if b3 10 (RuleBasedParser.add_if b2 15
            (RuleBasedParser.add_if b1 15 0.0%float)))))))).
Proof. unfold RuleBasedParser.score_of. repeat eexists. Qed.

(** For every record the rule-based confidence is a float of [0, 1]. *)
Lemma rule_confidence_bounds (r : ParsedResume.t) (text : string) :
  (0 <=? RuleBasedParser._calculate_confidence r text)%float = true
  /\ (RuleBasedParser._calculate_confidence r text <=? 1)%float = true.
Proof.
  unfold RuleBasedParser._calculate_confidence.
  destruct (rule_score_cases r)
    as (b1 & b2 & b3 & b4 & b5 & b6 & b7 & b8 & b9 & ->).
  destruct b1, b2, b3, b4, b5, b6, b7, b8, b9; vm_compute; split; reflexivity.
Qed.

(** Whatever the text, the rule-based parser either refuses the address it
    found or returns a confidence of [0, 1], stored in the record too. *)
Lemma rule_parse_confidence (W : World) (text : string) :
  match RuleBasedParser.parse W text with
  | inr (r, c) =>
      (0 <=? c)%float = true /\ (c <=? 1)%float = true
      /\ ParsedResume.confidence_score r = Some c
  | inl e => exists msg, e = ValidationError msg
  end.
Proof.
  unfold RuleBasedParser.parse.
  destruct (RuleBasedParser._extract_personal_info W text _) as [e|info] eqn:E.
  - unfold RuleBasedParser._extract_personal_info in E.
    destruct (RuleBasedParser.first_or_None
                (Re.findall RuleBasedParser.email_pattern _)); [|discriminate].
    destruct (validate_email W s); [discriminate|].
    injection E as <-. eauto.
  - match goal with
    | |- context [RuleBasedParser._calculate_confidence ?r ?t] =>
        pose proof (rule_confidence_bounds r t) as [H0 H1]
    end.
    simpl. auto.
Qed.

(** C3. The generative scorer does not return a float of [0, 1]: already on
    the empty record [ParsedResume()] it returns [None], although the score
    it has accumulated by then is the float [0.0]. *)
Theorem generative_confidence_is_not_a_float :
  LLMParser.score_of ParsedResume.default = 0%float
  /\ LLMParser._calculate_llm_confidence ParsedResume.default = None.
Proof. split; reflexivity. Qed.

(** C5. Both weight tables sum to exactly 1.0, as binary64 sums taken in
    the order of the source and as sums of the decimal fractions. *)
Theorem both_weight_tables_sum_to_one :
  LLMParser.score_of fully_populated = 1%float
  /\ (RuleBasedParser.score_of fully_populated / RuleBasedParser.max_score
      = 1)%float
  /\ (total generative_weights == 1)%Q
  /\ (total rule_weights == 1)%Q.
Proof. repeat split. Qed.

(** C5, as stated: the generative table would not sum to 1.0 while the
    rule-based table does. *)
Lemma generative_table_sum_is_one :
  ~ (LLMParser.score_of fully_populated <> 1%float
     /\ (RuleBasedParser.score_of fully_populated / RuleBasedParser.max_score
         = 1)%float).
Proof. intros [H _]. apply H. reflexivity. Qed.

(* ===================================================================== *)
(** ** Scenario A *)
(* ===================================================================== *)

(** What [findall] makes of the phone pattern: the country-code group, which
    is empty when the number has none. *)
Lemma phone_findall_lists_the_group :
  Re.findall RuleBasedParser.phone_pattern "555-123-4567" = [""]
  /\ Re.findall RuleBasedParser.phone_pattern "+1 555-123-4567" = ["+1 "]
  /\ map Re.whole (Re.finditer RuleBasedParser.phone_pattern "555-123-4567")
     = ["555-123-4567"].
Proof. repeat split. Qed.

(** The parse of Scenario A, for any validator that accepts the address. *)
Lemma parse_scenario_A (W : World) :
  validate_email W "john@x.com" = Some "john@x.com" ->
  RuleBasedParser.parse W scenario_A =
  inr (scenario_A_record, 0.5%float).
Proof.
  intros Hmail. unfold RuleBasedParser.parse.
  assert (Hinfo :
    RuleBasedParser._extract_personal_info W scenario_A
      (RuleBasedParser._split_into_sections scenario_A)
    = inr {| PersonalInfo.full_name := Some "John Smith";
             PersonalInfo.email := Some "john@x.com";
             PersonalInfo.phone := Some "";
             PersonalInfo.address := None; PersonalInfo.linkedin := None;
             PersonalInfo.github := None; PersonalInfo.portfolio := None |}).
  { unfold RuleBasedParser._extract_personal_info.
    replace (RuleBasedParser.first_or_None
               (Re.findall RuleBasedParser.email_pattern _))
      with (Some "john@x.com") by (vm_compute; reflexivity).
    rewrite Hmail. vm_compute. reflexivity. }
  rewrite Hinfo. vm_compute. reflexivity.
Qed.

(** C4, amended. On Scenario A the rule-based parser returns the name
    "John Smith", the address "john@x.com" and exactly one experience entry,
    whose company is "Senior Dev" (the text before the bar), whose position
    is "Acme Corp" (the text after it) and which is current. *)
Theorem scenario_A_parse (W : World) :
  validate_email W "john@x.com" = Some "john@x.com" ->
  exists r c e,
    RuleBasedParser.parse W scenario_A = inr (r, c)
    /\ PersonalInfo.full_name (ParsedResume.personal_info r) = Some "John Smith"
    /\ PersonalInfo.email (ParsedResume.personal_info r) = Some "john@x.com"
    /\ ParsedResume.experience r = [e]
    /\ Experience.company e = Some "Senior Dev"
    /\ Experience.position e = Some "Acme Corp"
    /\ Experience.is_current e = Some true.
Proof.
  intros Hmail. rewrite (parse_scenario_A W Hmail).
  do 3 eexists. repeat split.
Qed.

Lemma scenario_A_parse_witness :
  validate_email offline_world "john@x.com" = Some "john@x.com"
  /\ exists r c e,
    RuleBasedParser.parse offline_world scenario_A = inr (r, c)
    /\ PersonalInfo.full_name (ParsedResume.personal_info r) = Some "John Smith"
    /\ PersonalInfo.email (ParsedResume.personal_info r) = Some "john@x.com"
    /\ ParsedResume.experience r = [e]
    /\ Experience.company e = Some "Senior Dev"
    /\ Experience.position e = Some "Acme Corp"
    /\ Experience.is_current e = Some true.
Proof.
  split; [reflexivity | apply (scenario_A_parse offline_world); reflexivity].
Defined.

(** C4, as stated, fails: the phone that comes back is the empty string
    (what the optional country-code group captured), and the position is
    "Acme Corp", not "Senior Dev". *)
Lemma scenario_A_not_as_stated : ~ scenario_A_as_stated offline_world.
Proof.
  intros (r & c & e & Hparse & _ & _ & Hphone & _).
  rewrite (parse_scenario_A offline_world eq_refl) in Hparse.
  injection Hparse as <- _. discriminate Hphone.
Qed.

(* ===================================================================== *)
(** ** The escalation controller *)
(* ===================================================================== *)

Lemma lstrip_all_space (s : string) : all_space s = true -> lstrip s = "".
Proof.
  induction s as [|c s IH]; simpl; [reflexivity|].
  intros [Hc Hs]%andb_prop. rewrite Hc. auto.
Qed.

Lemma rstrip_nonspace (c : ascii) (s : string) :
  isspace c = false -> nonempty (rstrip (String c s)) = true.
Proof. intros Hc. simpl. destruct (rstrip s); [rewrite Hc|]; reflexivity. Qed.

Lemma lstrip_cases (s : string) :
  (all_space s = true /\ lstrip s = "")
  \/ (all_space s = false
      /\ exists c t, lstrip s = String c t /\ isspace c = false).
Proof.
  induction s as [|c s IH]; simpl; [left; auto|].
  destruct (isspace c) eqn:Hc; simpl; [exact IH|].
  right. split; [reflexivity|]. eauto.
Qed.

(** [text.strip()] is empty exactly on the texts made of whitespace only. *)
Lemma strip_blank (s : string) : nonempty (strip s) = negb (all_space s).
Proof.
  unfold strip.
  destruct (lstrip_cases s) as [[-> ->] | [-> (c & t & -> & Hc)]];
    [reflexivity|].
  now rewrite rstrip_nonspace.
Qed.

Section Controller.
Variable W : World.
Variable llm : string -> string -> exn + (ParsedResume.t * option float).

(** The fallback block never raises: it yields the merged record. *)
Lemma llm_fallback_run text llm_provider use_llm_fallback r1 c1 log :
  routes.llm_fallback llm text llm_provider use_llm_fallback r1 c1 log
  = (inr (merged llm text llm_provider use_llm_fallback r1 c1),
     (log ++ fallback_events llm text llm_provider use_llm_fallback c1)%list).
Proof.
  unfold routes.llm_fallback, merged, fallback_events.
  destruct ((c1 <? settings.RULE_CONFIDENCE_THRESHOLD)%float
            && use_llm_fallback).
  - unfold routes.try_except, routes.bind, routes.call, routes.lift,
      routes.print, routes.ret.
    destruct (llm text llm_provider) as [e | [r2 [c2|]]]; simpl;
      rewrite <- ?app_assoc; reflexivity.
  - unfold routes.ret. now rewrite app_nil_r.
Qed.

(** Once a request has reached the core with a text that is not blank and
    the rule-based parse has returned, the route answers with a success
    response that carries the merged record. *)
Lemma route_after_rule_parse file name text use_llm_fallback llm_provider
    r1 c1 log :
  reaches_core W file name text ->
  nonempty (strip text) = true ->
  RuleBasedParser.parse W text = inr (r1, c1) ->
  routes.parse_resume_sync_with W llm file use_llm_fallback llm_provider log
  = (inr (success_response W
            (merged llm text llm_provider use_llm_fallback r1 c1)),
     (log ++ [routes.CallExtractText name; routes.CallRuleParse text]
          ++ fallback_events llm text llm_provider use_llm_fallback c1)%list).
Proof.
  intros (Hname & Hne & Hext & Hsize & method & Hextract) Htext Hparse.
  unfold routes.parse_resume_sync_with, routes.parse_resume_sync_body,
    routes.try_except.
  rewrite Hname. change (truthy (Some name)) with (nonempty name).
  rewrite Hne, Hext, Hsize.
  cbv beta iota zeta delta [negb routes.bind routes.call].
  rewrite Hextract, Htext.
  cbv beta iota zeta delta [negb routes.bind routes.call].
  rewrite Hparse, llm_fallback_run.
  unfold routes.ret, success_response. simpl.
  now rewrite <- !app_assoc.
Qed.

(** A request whose extracted text is blank is refused before any
    extractor runs. *)
Lemma route_blank_text file name text use_llm_fallback llm_provider log :
  reaches_core W file name text ->
  nonempty (strip text) = false ->
  routes.parse_resume_sync_with W llm file use_llm_fallback llm_provider log
  = (inl no_text_error, (log ++ [routes.CallExtractText name])%list).
Proof.
  intros (Hname & Hne & Hext & Hsize & method & Hextract) Htext.
  unfold routes.parse_resume_sync_with, routes.parse_resume_sync_body,
    routes.try_except.
  rewrite Hname. change (truthy (Some name)) with (nonempty name).
  rewrite Hne, Hext, Hsize.
  cbv beta iota zeta delta [negb routes.bind routes.call].
  rewrite Hextract, Htext. reflexivity.
Qed.

Lemma llm_calls_app (l1 l2 : list routes.event) :
  llm_calls (l1 ++ l2) = (llm_calls l1 + llm_calls l2)%nat.
Proof. unfold llm_calls. now rewrite List.filter_app, List.length_app. Qed.

Lemma rule_calls_app (l1 l2 : list routes.event) :
  rule_calls (l1 ++ l2) = (rule_calls l1 + rule_calls l2)%nat.
Proof. unfold rule_calls. now rewrite List.filter_app, List.length_app. Qed.

Lemma llm_calls_fallback text llm_provider use_llm_fallback c1 :
  llm_calls (fallback_events llm text llm_provider use_llm_fallback c1)
  = if (c1 <? settings.RULE_CONFIDENCE_THRESHOLD)%float && use_llm_fallback
    then 1%nat else 0%nat.
Proof.
  unfold fallback_events.
  destruct ((c1 <? settings.RULE_CONFIDENCE_THRESHOLD)%float
            && use_llm_fallback); [|reflexivity].
  destruct (llm text llm_provider) as [e | [r2 [c2|]]]; reflexivity.
Qed.
End Controller.

(** C1. Merge law. When the route escalates, the record it returns is the
    generative record if the generative confidence is strictly greater than
    the rule-based confidence; in every other case, a tie included, it is
    the rule-based record. *)
Theorem merge_law (W : World)
    (llm : string -> string -> exn + (ParsedResume.t * option float))
    (file : UploadFile) (name text llm_provider : string)
    (r1 : ParsedResume.t) (c1 : float) (log : list routes.event) :
  reaches_core W file name text ->
  nonempty (strip text) = true ->
  RuleBasedParser.parse W text = inr (r1, c1) ->
  (c1 <? settings.RULE_CONFIDENCE_THRESHOLD)%float = true ->
  exists final log',
    routes.parse_resume_sync_with W llm file true llm_provider log
    = (inr (success_response W final), log')
    /\ final = match llm text llm_provider with
               | inr (r2, Some c2) => if (c1 <? c2)%float then r2 else r1
               | _ => r1
               end
    /\ (forall r2 c2, llm text llm_provider = inr (r2, Some c2) ->
                      (c1 <? c2)%float = true -> final = r2)
    /\ (forall r2 c2, llm text llm_provider = inr (r2, Some c2) ->
                      (c1 <? c2)%float = false -> final = r1)
    /\ (forall r2, llm text llm_provider = inr (r2, Some c1) -> final = r1).
Proof.
  intros Hcore Htext Hparse Hlow.
  eexists. eexists. split.
  { apply route_after_rule_parse; eassumption. }
  unfold merged. rewrite Hlow. simpl andb. cbv iota.
  split; [reflexivity|].
  split; [|split].
  - intros r2 c2 -> ->. reflexivity.
  - intros r2 c2 -> ->. reflexivity.
  - intros r2 ->. now rewrite ltb_irrefl.
Qed.

Lemma merge_law_witness :
  exists final log',
    routes.parse_resume_sync_with offline_world (llm_returning 0.9)
      (upload scenario_A) true "openai" []
    = (inr (success_response offline_world final), log')
    /\ final = fully_populated.
Proof.
  destruct (merge_law offline_world (llm_returning 0.9) (upload scenario_A)
              "resume.txt" scenario_A "openai" scenario_A_record 0.5 [])
    as (final & log' & Hrun & Hfinal & _).
  - repeat split; try reflexivity. eexists. reflexivity.
  - reflexivity.
  - apply parse_scenario_A. reflexivity.
  - reflexivity.
  - exists final, log'. split; [exact Hrun | exact Hfinal].
Defined.

(** C2. Escalation boundary. The route calls the generative extractor once
    if the rule-based confidence is strictly below 0.85 and the caller
    enabled the fallback, and not at all otherwise; at a confidence of 0.85
    or above it is not called, whatever the flag. *)
Theorem escalation_boundary (W : World)
    (llm : string -> string -> exn + (ParsedResume.t * option float))
    (file : UploadFile) (name text llm_provider : string)
    (use_llm_fallback : bool)
    (r1 : ParsedResume.t) (c1 : float) (log : list routes.event) :
  reaches_core W file name text ->
  nonempty (strip text) = true ->
  RuleBasedParser.parse W text = inr (r1, c1) ->
  exists response log',
    routes.parse_resume_sync_with W llm file use_llm_fallback llm_provider log
    = (response, log')
    /\ llm_calls log' =
       (llm_calls log
        + if (c1 <? 0.85)%float && use_llm_fallback then 1 else 0)%nat
    /\ ((0.85 <=? c1)%float = true -> llm_calls log' = llm_calls log)
    /\ (c1 = 0.85%float -> llm_calls log' = llm_calls log).
Proof.
  intros Hcore Htext Hparse.
  eexists. eexists. split.
  { apply route_after_rule_parse; eassumption. }
  rewrite !llm_calls_app, llm_calls_fallback.
  change settings.RULE_CONFIDENCE_THRESHOLD with 0.85%float.
  change (llm_calls [routes.CallExtractText name; routes.CallRuleParse text])
    with 0%nat.
  split; [lia|]. split.
  - intros Hge. rewrite (leb_not_ltb _ _ Hge). simpl. lia.
  - intros ->. rewrite ltb_irrefl. simpl. lia.
Qed.

Lemma escalation_boundary_witness :
  exists response log',
    routes.parse_resume_sync_with offline_world (llm_returning 0.9)
      (upload scenario_A) true "openai" []
    = (response, log')
    /\ llm_calls log' = 1%nat.
Proof.
  destruct (escalation_boundary offline_world (llm_returning 0.9)
              (upload scenario_A) "resume.txt" scenario_A "openai" true
              scenario_A_record 0.5 [])
    as (response & log' & Hrun & Hcalls & _).
  - repeat split; try reflexivity. eexists. reflexivity.
  - reflexivity.
  - apply parse_scenario_A. reflexivity.
  - exists response, log'. split; [exact Hrun | exact Hcalls].
Defined.

(** The boundary values of the specification: 0.849 is below the threshold,
    and a record that misses only its skills scores exactly 0.85, which is
    not. *)
Lemma boundary_values :
  (0.849 <? settings.RULE_CONFIDENCE_THRESHOLD)%float = true
  /\ (0.85 <? settings.RULE_CONFIDENCE_THRESHOLD)%float = false
  /\ (RuleBasedParser.add_if true 2.5 (RuleBasedParser.add_if true 2.5
       (RuleBasedParser.add_if true 5 (RuleBasedParser.add_if false 15
         (RuleBasedParser.add_if true 15 (RuleBasedParser.add_if true 20
           (RuleBasedParser.add_if true 10 (RuleBasedParser.add_if true 15
             (RuleBasedParser.add_if true 15 0.0)))))))) / 100 = 0.85)%float.
Proof. repeat split. Qed.

(** C7. Empty-input refusal. When the extracted text is empty or made of
    whitespace only, the route raises the no-text error to the caller; it
    returns no record, and neither extractor has been called. *)
Theorem empty_text_refused (W : World)
    (llm : string -> string -> exn + (ParsedResume.t * option float))
    (file : UploadFile) (name text llm_provider : string)
    (use_llm_fallback : bool) (log : list routes.event) :
  reaches_core W file name text ->
  all_space text = true ->
  exists log',
    routes.parse_resume_sync_with W llm file use_llm_fallback llm_provider log
    = (inl (HTTPException 400 "No text could be extracted from file"), log')
    /\ rule_calls log' = rule_calls log
    /\ llm_calls log' = llm_calls log.
Proof.
  intros Hcore Hblank. eexists. split.
  { apply (route_blank_text W llm file name text); [assumption|].
    rewrite strip_blank, Hblank. reflexivity. }
  rewrite rule_calls_app, llm_calls_app.
  change (rule_calls [routes.CallExtractText name]) with 0%nat.
  change (llm_calls [routes.CallExtractText name]) with 0%nat.
  split; lia.
Qed.

Lemma empty_text_refused_witness :
  exists log',
    routes.parse_resume_sync_with offline_world (LLMParser.parse offline_world)
      (upload ("  " ++ nl ++ " ")) true "openai" []
    = (inl (HTTPException 400 "No text could be extracted from file"), log')
    /\ rule_calls log' = rule_calls []
    /\ llm_calls log' = llm_calls [].
Proof.
  apply (empty_text_refused offline_world (LLMParser.parse offline_world)
           (upload ("  " ++ nl ++ " ")) "resume.txt" ("  " ++ nl ++ " ")
           "openai" true []).
  - repeat split; try reflexivity. eexists. reflexivity.
  - reflexivity.
Defined.

(** The guard is the route's: called on its own with the empty text, the
    rule-based parser returns the empty record with confidence 0.0. *)
Lemma rule_parse_of_empty_text (W : World) :
  RuleBasedParser.parse W ""
  = inr (ParsedResume.set_parsing_method "rule_based" ParsedResume.default,
         0%float).
Proof. reflexivity. Qed.

(** C8. Failure containment. When the route escalates and the generative
    call fails, whatever the exception, the route catches it, prints one
    line and answers with a success response that carries the rule-based
    record. *)
Theorem generative_failure_contained (W : World)
    (llm : string -> string -> exn + (ParsedResume.t * option float))
    (file : UploadFile) (name text llm_provider : string)
    (r1 : ParsedResume.t) (c1 : float) (e : exn) (log : list routes.event) :
  reaches_core W file name text ->
  nonempty (strip text) = true ->
  RuleBasedParser.parse W text = inr (r1, c1) ->
  (c1 <? settings.RULE_CONFIDENCE_THRESHOLD)%float = true ->
  llm text llm_provider = inl e ->
  routes.parse_resume_sync_with W llm file true llm_provider log
  = (inr (success_response W r1),
     (log ++ [routes.CallExtractText name; routes.CallRuleParse text;
              routes.CallLLMParse text llm_provider;
              routes.Printed ("LLM fallback failed: " ++ str_exn e)])%list).
Proof.
  intros Hcore Htext Hparse Hlow Hfail.
  rewrite (route_after_rule_parse W llm file name text true llm_provider
             r1 c1 log Hcore Htext Hparse).
  unfold merged, fallback_events. rewrite Hlow, Hfail. reflexivity.
Qed.

Lemma generative_failure_contained_witness :
  routes.parse_resume_sync_with offline_world (LLMParser.parse offline_world)
    (upload scenario_A) true "openai" []
  = (inr (success_response offline_world scenario_A_record),
     [routes.CallExtractText "resume.txt"; routes.CallRuleParse scenario_A;
      routes.CallLLMParse scenario_A "openai";
      routes.Printed
        ("LLM fallback failed: LLM parsing failed: "
         ++ "Provider openai not available or not configured")]).
Proof.
  apply (generative_failure_contained offline_world
           (LLMParser.parse offline_world) (upload scenario_A) "resume.txt"
           scenario_A "openai" scenario_A_record 0.5
           (Exception ("LLM parsing failed: "
                       ++ "Provider openai not available or not configured"))
           []).
  - repeat split; try reflexivity. eexists. reflexivity.
  - reflexivity.
  - apply parse_scenario_A. reflexivity.
  - reflexivity.
  - reflexivity.
Defined.

(* ===================================================================== *)
(** ** The generative path behind the route *)
(* ===================================================================== *)

Lemma finish_confidence (W : World) (method : string) (result : json) :
  snd (LLMParser.finish W method result) = None
  /\ ParsedResume.confidence_score (fst (LLMParser.finish W method result))
     = None.
Proof. split; reflexivity. Qed.

(** Whenever the generative parser returns, the confidence it returns and
    the one it stored in the record are [None]. *)
Lemma llm_parse_returns_none (W : World) (text provider : string)
    (r : ParsedResume.t) (c : option float) :
  LLMParser.parse W text provider = inr (r, c) ->
  c = None /\ ParsedResume.confidence_score r = None.
Proof.
  unfold LLMParser.parse, LLMParser._parse_with_openai,
    LLMParser._parse_with_anthropic, Raise.try_except, Raise.bind.
  destruct (String.eqb provider "openai" && LLMParser.openai_client W).
  - destruct (openai_create W _) as [e|content]; [discriminate|].
    destruct (json_loads W content) as [e|result]; [discriminate|].
    intros [= <- <-]. split; reflexivity.
  - destruct (String.eqb provider "anthropic" && LLMParser.anthropic_client W);
      [|discriminate].
    destruct (anthropic_create W _) as [e|content]; [discriminate|].
    destruct (json_loads W _) as [e|result]; [discriminate|].
    intros [= <- <-]. split; reflexivity.
Qed.

(** With the repository's generative parser behind it, the fallback block
    always leaves the rule-based record in place. *)
Lemma merged_with_llm_parser (W : World) (text provider : string)
    (use_llm_fallback : bool) (r1 : ParsedResume.t) (c1 : float) :
  merged (LLMParser.parse W) text provider use_llm_fallback r1 c1 = r1.
Proof.
  unfold merged.
  destruct ((c1 <? settings.RULE_CONFIDENCE_THRESHOLD)%float
            && use_llm_fallback); [|reflexivity].
  destruct (LLMParser.parse W text provider) as [e | [r2 [c2|]]] eqn:E;
    try reflexivity.
  apply llm_parse_returns_none in E as [[=] _].
Qed.

(** C9. [_calculate_llm_confidence] returns [None] for every record;
    so every generative parse that returns hands back [None] as its
    confidence and stores [None] in the record; comparing [None] with any
    rule-based confidence raises a type error; and the route, which catches
    it, answers with the rule-based record whenever the rule-based parse
    returned. *)
Theorem missing_return_keeps_rule_based :
  (forall r : ParsedResume.t, LLMParser._calculate_llm_confidence r = None)
  /\ (forall (W : World) (text provider : string) (r : ParsedResume.t)
             (c : option float),
         LLMParser.parse W text provider = inr (r, c) ->
         c = None /\ ParsedResume.confidence_score r = None)
  /\ (forall c1 : float, exists msg, routes.py_gt None c1 = inl (TypeError msg))
  /\ (forall (W : World) (file : UploadFile) (name text provider : string)
             (use_llm_fallback : bool) (r1 : ParsedResume.t) (c1 : float)
             (log : list routes.event),
         reaches_core W file name text ->
         nonempty (strip text) = true ->
         RuleBasedParser.parse W text = inr (r1, c1) ->
         exists log',
           routes.parse_resume_sync W file use_llm_fallback provider log
           = (inr (success_response W r1), log')).
Proof.
  split; [reflexivity|].
  split; [exact llm_parse_returns_none|].
  split; [intros c1; eexists; reflexivity|].
  intros W file name text provider use_llm_fallback r1 c1 log Hcore Htext Hparse.
  unfold routes.parse_resume_sync.
  rewrite (route_after_rule_parse W (LLMParser.parse W) file name text
             use_llm_fallback provider r1 c1 log Hcore Htext Hparse).
  rewrite merged_with_llm_parser. eexists. reflexivity.
Qed.

Lemma missing_return_keeps_rule_based_witness :
  (LLMParser.parse online_world scenario_A "openai"
   = inr (ParsedResume.set_confidence_score None
            (ParsedResume.set_parsing_method "llm_openai" fully_populated),
          None))
  /\ (None = None (A:=float)
      /\ ParsedResume.confidence_score
           (ParsedResume.set_confidence_score None
              (ParsedResume.set_parsing_method "llm_openai" fully_populated))
         = None)
  /\ exists log',
      routes.parse_resume_sync online_world (upload scenario_A) true "openai" []
      = (inr (success_response online_world scenario_A_record), log').
Proof.
  destruct missing_return_keeps_rule_based as (_ & Hparse & _ & Hroute).
  split; [reflexivity|]. split.
  - apply (Hparse online_world scenario_A "openai"). reflexivity.
  - apply (Hroute online_world (upload scenario_A) "resume.txt" scenario_A
             "openai" true scenario_A_record 0.5%float []).
    + repeat split; try reflexivity. eexists. reflexivity.
    + reflexivity.
    + apply parse_scenario_A. reflexivity.
Defined.

(* ===================================================================== *)
(** ** The section segmenter *)
(* ===================================================================== *)

Section Segmenter.
Import RuleBasedParser.

(** One iteration of the loop, by the kind of the line. *)
Lemma seg_step_classify (st : seg_state) (l : string) :
  seg_step st l =
  match classify l with
  | Blank => st
  | Header section =>
      {| sections := flush st; current_section := section;
         current_content := [] |}
  | Content c =>
      {| sections := sections st; current_section := current_section st;
         current_content := current_content st ++ [c] |}
  end.
Proof.
  unfold seg_step, classify.
  destruct (nonempty (strip l)); simpl; [|reflexivity].
  destruct (section_found (strip l)); reflexivity.
Qed.

Lemma flush_other (st : seg_state) (k : string) :
  current_section st <> k -> flush st !! k = sections st !! k.
Proof.
  intros Hne. unfold flush.
  destruct (truthy_list (current_content st)); [|reflexivity].
  now rewrite lookup_insert_ne.
Qed.

Lemma flush_current (st : seg_state) :
  current_content st <> [] ->
  flush st !! current_section st = Some (join nl (current_content st)).
Proof.
  intros Hne. unfold flush.
  destruct (current_content st) as [|x l]; [contradiction|].
  simpl truthy_list. cbv iota. now rewrite lookup_insert_eq.
Qed.

Lemma is_header_for_false (section s : string) (l : string) :
  classify l = Header s -> is_header_for section l = false -> s <> section.
Proof.
  unfold is_header_for. intros -> H ->. now rewrite String.eqb_refl in H.
Qed.

(** While the loop is in another section and meets no header of [k], what
    the map holds for [k] stays as it is, final flush included. *)
Lemma other_section_untouched (k : string) (post : list string) :
  forall st : seg_state,
    current_section st <> k ->
    forallb (fun l => negb (is_header_for k l)) post = true ->
    flush (fold_left seg_step post st) !! k = sections st !! k.
Proof.
  induction post as [|l post IH]; intros st Hcur Hpost; simpl.
  - now apply flush_other.
  - simpl in Hpost. apply andb_prop in Hpost as [Hl Hpost].
    apply negb_true_iff in Hl.
    rewrite seg_step_classify.
    destruct (classify l) as [|s|c] eqn:Hk.
    + now apply IH.
    + rewrite IH; simpl; [now apply flush_other | | assumption].
      eapply is_header_for_false; eassumption.
    + now rewrite IH.
Qed.

(** From inside section [k], with [acc] accumulated so far: if no later
    header reopens [k], the map ends up holding for [k] the accumulated
    lines followed by the content up to the next header. *)
Lemma current_section_flushed (k : string) (post : list string) :
  forall st : seg_state,
    current_section st = k ->
    forallb (fun l => negb (is_header_for k l)) post = true ->
    (current_content st ++ leading_content post)%list <> [] ->
    flush (fold_left seg_step post st) !! k
    = Some (join nl (current_content st ++ leading_content post)).
Proof.
  induction post as [|l post IH]; intros st Hcur Hpost Hne; simpl in *.
  - rewrite app_nil_r in *. subst k. now apply flush_current.
  - apply andb_prop in Hpost as [Hl Hpost]. apply negb_true_iff in Hl.
    rewrite seg_step_classify.
    destruct (classify l) as [|s|c] eqn:Hk.
    + now apply IH.
    + rewrite app_nil_r in *.
      rewrite other_section_untouched; simpl;
        [subst k; now apply flush_current | | assumption].
      eapply is_header_for_false; eassumption.
    + rewrite IH; simpl; rewrite <- ?app_assoc; auto.
Qed.

End Segmenter.

(** C6, amended. When a section's header occurs at [h1] and again, for the
    last time, at [h2], and at least one content line follows [h2] before
    the next header or the end of the text, the map holds for that section
    exactly the content that follows [h2]: whatever was accumulated after
    [h1] is replaced, not appended to. *)
Theorem duplicate_header_keeps_last_content (text : string)
    (pre : list string) (h1 : string) (mid : list string) (h2 : string)
    (post : list string) (section : string) :
  split nl text = (pre ++ h1 :: mid ++ h2 :: post)%list ->
  classify h1 = Header section ->
  classify h2 = Header section ->
  leading_content mid <> [] ->
  forallb (fun l => negb (is_header_for section l)) post = true ->
  leading_content post <> [] ->
  RuleBasedParser._split_into_sections text !! section
  = Some (join nl (leading_content post)).
Proof.
  intros Hlines _ Hh2 _ Hlast Hcontent.
  unfold RuleBasedParser._split_into_sections. rewrite Hlines.
  replace (pre ++ h1 :: mid ++ h2 :: post)%list
    with ((pre ++ h1 :: mid) ++ h2 :: post)%list
    by (rewrite <- app_assoc; reflexivity).
  rewrite fold_left_app. simpl fold_left.
  rewrite (seg_step_classify _ h2), Hh2.
  now rewrite current_section_flushed.
Qed.

Lemma duplicate_header_keeps_last_content_witness :
  RuleBasedParser._split_into_sections scenario_E !! "skills" = Some "Rocq".
Proof.
  apply (duplicate_header_keeps_last_content scenario_E
           [] "Skills" ["Python"; "Education"; "State University"] "Skills"
           ["Rocq"] "skills");
    try reflexivity; vm_compute; discriminate.
Defined.

(** C6, as stated, fails when nothing follows the second header: on
    "Skills / A / Skills" the map still holds "A" for the section. *)
Lemma duplicate_header_without_content :
  ~ duplicate_header_overwrites scenario_E_short.
Proof.
  intros H.
  specialize (H [] "Skills" ["A"] "Skills" [] "skills").
  assert (Hget : RuleBasedParser.get
            (RuleBasedParser._split_into_sections scenario_E_short) "skills"
          = "A") by (vm_compute; reflexivity).
  rewrite Hget in H.
  discriminate H; try reflexivity. vm_compute. discriminate.
Qed.

(* ===================================================================== *)
(** ** What the segmenter stores *)
(* ===================================================================== *)

Lemma prefix_empty (s : string) : String.prefix "" s = true.
Proof. destruct s; reflexivity. Qed.

Lemma prefix_cons (a : ascii) (p : string) (c : ascii) (s : string) :
  String.prefix (String a p) (String c s) = Ascii.eqb a c && String.prefix p s.
Proof.
  change (String.prefix (String a p) (String c s))
    with (if Ascii.ascii_dec a c then String.prefix p s else false).
  destruct (Ascii.ascii_dec a c) as [<-|Hne].
  - now rewrite Ascii.eqb_refl.
  - apply Ascii.eqb_neq in Hne. now rewrite Hne.
Qed.

Lemma prefix_nl (c : ascii) (s : string) :
  String.prefix nl (String c s) = Ascii.eqb "010" c.
Proof. unfold nl. now rewrite prefix_cons, prefix_empty, andb_true_r. Qed.

Lemma prefix_blank_line (c : ascii) (s : string) :
  String.prefix (nl ++ nl) (String c s)
  = Ascii.eqb "010" c && String.prefix nl s.
Proof. change (nl ++ nl) with (String "010" nl). apply prefix_cons. Qed.

Lemma split_from_nl_cons (c : ascii) (s : string) :
  split_from nl 0 (String c s) =
  if Ascii.eqb "010" c
  then (EmptyString, let '(p, ps) := split_from nl 0 s in p :: ps)
  else let '(p, ps) := split_from nl 0 s in (String c p, ps).
Proof.
  change (split_from nl 0 (String c s))
    with (if String.prefix nl (String c s)
          then (EmptyString, let '(p, ps) := split_from nl 0 s in p :: ps)
          else let '(p, ps) := split_from nl 0 s in (String c p, ps)).
  now rewrite prefix_nl.
Qed.

Lemma split_from_nl_no_newline (s : string) :
  mem_char "010" (fst (split_from nl 0 s)) = false
  /\ Forall (fun p => mem_char "010" p = false) (snd (split_from nl 0 s)).
Proof.
  induction s as [|c s [IHp IHps]]; [split; [reflexivity|constructor]|].
  rewrite split_from_nl_cons.
  destruct (split_from nl 0 s) as [p ps]. simpl in IHp, IHps.
  destruct (Ascii.eqb "010" c) eqn:Hc; cbn [fst snd].
  - split; [reflexivity|]. now constructor.
  - split; [|assumption].
    change (mem_char "010" (String c p))
      with (Ascii.eqb "010" c || mem_char "010" p).
    now rewrite Hc, IHp.
Qed.

(** The pieces of [text.split('\n')] hold no newline. *)
Lemma split_nl_no_newline (s : string) :
  Forall (fun p => mem_char "010" p = false) (split nl s).
Proof.
  unfold split. pose proof (split_from_nl_no_newline s) as [Hp Hps].
  destruct (split_from nl 0 s) as [p ps]. now constructor.
Qed.

Lemma mem_char_lstrip (c : ascii) (s : string) :
  mem_char c s = false -> mem_char c (lstrip s) = false.
Proof.
  induction s as [|d s IH]; simpl; [auto|].
  intros [Hd Hs]%orb_false_elim.
  destruct (isspace d); [auto|]. simpl. now rewrite Hd, Hs.
Qed.

Lemma mem_char_rstrip (c : ascii) (s : string) :
  mem_char c s = false -> mem_char c (rstrip s) = false.
Proof.
  induction s as [|d s IH]; simpl; [auto|].
  intros [Hd Hs]%orb_false_elim. specialize (IH Hs).
  destruct (rstrip s) as [|e r].
  - destruct (isspace d); simpl; [reflexivity|]. now rewrite Hd.
  - simpl in *. now rewrite Hd, IH.
Qed.

Lemma rstrip_idempotent (s : string) : rstrip (rstrip s) = rstrip s.
Proof.
  induction s as [|c s IH]; simpl; [reflexivity|].
  destruct (rstrip s) as [|e r] eqn:E.
  - destruct (isspace c) eqn:Hc; simpl; [reflexivity|]. now rewrite Hc.
  - change (rstrip (String c (String e r))) with
      (match rstrip (String e r) with
       | EmptyString => if isspace c then EmptyString else String c EmptyString
       | r' => String c r'
       end).
    now rewrite IH.
Qed.

Lemma lstrip_clean (s : string) : starts_clean s -> lstrip s = s.
Proof. destruct s as [|c s]; simpl; [tauto|]. now intros ->. Qed.

Lemma lstrip_empty_or_clean (s : string) :
  lstrip s = "" \/ starts_clean (lstrip s).
Proof.
  induction s as [|c s IH]; simpl; [now left|].
  destruct (isspace c) eqn:Hc; [exact IH|]. now right.
Qed.

Lemma rstrip_clean (s : string) : starts_clean s -> starts_clean (rstrip s).
Proof.
  destruct s as [|c s]; simpl; [tauto|]. intros Hc.
  destruct (rstrip s); [rewrite Hc|]; exact Hc.
Qed.

Lemma strip_idempotent (s : string) : strip (strip s) = strip s.
Proof.
  unfold strip.
  destruct (lstrip_empty_or_clean s) as [-> | Hclean]; [reflexivity|].
  rewrite (lstrip_clean (rstrip (lstrip s))) by now apply rstrip_clean.
  apply rstrip_idempotent.
Qed.

Lemma nonempty_strip_clean (s : string) :
  nonempty (strip s) = true -> starts_clean (strip s).
Proof.
  unfold strip.
  destruct (lstrip_empty_or_clean s) as [-> | Hclean]; [discriminate|].
  intros _. now apply rstrip_clean.
Qed.

(** What the loop appends to [current_content] is a stored line. *)
Lemma strip_stored_line (l0 : string) :
  mem_char "010" l0 = false ->
  nonempty (strip l0) = true ->
  stored_line (strip l0).
Proof.
  intros Hnl Hne. split; [assumption|]. split; [apply strip_idempotent|].
  unfold strip. now apply mem_char_rstrip, mem_char_lstrip.
Qed.

Lemma stored_line_clean (l : string) : stored_line l -> starts_clean l.
Proof.
  intros (Hne & Hstrip & _). rewrite <- Hstrip.
  apply nonempty_strip_clean. now rewrite Hstrip.
Qed.

Lemma starts_clean_app (x t : string) : starts_clean x -> starts_clean (x ++ t).
Proof. destruct x; simpl; tauto. Qed.

Lemma join_clean (ls : list string) :
  ls <> [] -> Forall stored_line ls -> starts_clean (join nl ls).
Proof.
  destruct ls as [|x ls]; [contradiction|]. intros _ Hall.
  apply Forall_cons_1 in Hall as [Hx _]. apply stored_line_clean in Hx.
  destruct ls; simpl; [assumption|]. now apply starts_clean_app.
Qed.

(** [text.strip()] of a string that starts clean is not empty. *)
Lemma clean_not_blank (s : string) :
  starts_clean s -> nonempty (strip s) = true.
Proof.
  destruct s as [|c s]; simpl; [tauto|]. intros Hc.
  rewrite strip_blank. simpl. now rewrite Hc.
Qed.

(** A piece without newline in front of [t] adds no blank line to it. *)
Lemma contains_blank_line_app (x t : string) :
  mem_char "010" x = false ->
  contains (nl ++ nl) (x ++ t) = contains (nl ++ nl) t.
Proof.
  induction x as [|a x IH]; [reflexivity|].
  intros [Ha Hx]%orb_false_elim.
  change (contains (nl ++ nl) (String a x ++ t))
    with (String.prefix (nl ++ nl) (String a (x ++ t))
          || contains (nl ++ nl) (x ++ t)).
  rewrite prefix_blank_line, Ha. simpl. auto.
Qed.

Lemma clean_no_newline_first (t : string) :
  starts_clean t -> String.prefix nl t = false.
Proof.
  destruct t as [|c t]; simpl starts_clean; [tauto|]. intros Hc.
  rewrite prefix_nl. apply Ascii.eqb_neq. now intros <-.
Qed.

Lemma no_newline_no_blank_line (x : string) :
  mem_char "010" x = false -> contains (nl ++ nl) x = false.
Proof.
  induction x as [|a x IH]; [reflexivity|].
  intros [Ha Hx]%orb_false_elim.
  change (contains (nl ++ nl) (String a x))
    with (String.prefix (nl ++ nl) (String a x) || contains (nl ++ nl) x).
  rewrite prefix_blank_line, Ha. simpl. auto.
Qed.

(** A newline-join of stored lines holds no blank line. *)
Lemma join_no_blank_line (ls : list string) :
  Forall stored_line ls -> contains (nl ++ nl) (join nl ls) = false.
Proof.
  induction ls as [|x ls IH]; intros Hall; [reflexivity|].
  apply Forall_cons_1 in Hall as [Hx Hls].
  pose proof Hx as (_ & _ & Hnl).
  destruct ls as [|y ls].
  - now apply no_newline_no_blank_line.
  - change (join nl (x :: y :: ls))
      with (x ++ String "010" (join nl (y :: ls))).
    rewrite contains_blank_line_app by assumption.
    change (contains (nl ++ nl) (String "010" (join nl (y :: ls))))
      with (String.prefix (nl ++ nl) (String "010" (join nl (y :: ls)))
            || contains (nl ++ nl) (join nl (y :: ls))).
    rewrite (IH Hls), orb_false_r.
    rewrite prefix_blank_line, Ascii.eqb_refl, andb_true_l.
    apply clean_no_newline_first, join_clean; [discriminate|assumption].
Qed.

(** A text without the separator is the only piece of its split. *)
Lemma split_without_separator (sep s : string) :
  contains sep s = false -> split sep s = [s].
Proof.
  unfold split.
  assert (H : contains sep s = false -> split_from sep 0 s = (s, [])).
  { induction s as [|c s IH]; [reflexivity|].
    intros Hc. change (contains sep (String c s))
      with (String.prefix sep (String c s) || contains sep s) in Hc.
    apply orb_false_elim in Hc as [Hp Hs].
    change (split_from sep 0 (String c s))
      with (if String.prefix sep (String c s)
            then (EmptyString,
                  let '(p, ps) := split_from sep (String.length sep - 1) s in
                  p :: ps)
            else let '(p, ps) := split_from sep 0 s in (String c p, ps)).
    now rewrite Hp, (IH Hs). }
  intros Hc. now rewrite (H Hc).
Qed.

Lemma stored_blob_facts (v : string) :
  stored_blob v ->
  contains (nl ++ nl) v = false /\ nonempty v = true
  /\ nonempty (strip v) = true.
Proof.
  intros (ls & Hne & Hall & ->).
  pose proof (join_clean ls Hne Hall) as Hclean.
  split; [now apply join_no_blank_line|].
  split; [|now apply clean_not_blank].
  destruct (join nl ls); [contradiction|reflexivity].
Qed.


Section SegmenterInvariant.
Import RuleBasedParser.

Lemma flush_inv (st : seg_state) :
  seg_inv st -> forall k v, flush st !! k = Some v -> stored_blob v.
Proof.
  intros [Hmap Hacc] k v. unfold flush.
  destruct (current_content st) as [|x l] eqn:E; simpl truthy_list; cbv iota.
  - apply Hmap.
  - rewrite lookup_insert. destruct (decide (current_section st = k)).
    + intros [= <-]. exists (x :: l). split; [discriminate|]. now split.
    + apply Hmap.
Qed.

Lemma seg_init_inv : seg_inv seg_init.
Proof.
  split; [|constructor]. intros k v. simpl. now rewrite lookup_empty.
Qed.

Lemma seg_step_inv (st : seg_state) (l0 : string) :
  mem_char "010" l0 = false -> seg_inv st -> seg_inv (seg_step st l0).
Proof.
  intros Hnl Hinv. unfold seg_step.
  destruct (nonempty (strip l0)) eqn:Hne; simpl negb; cbv iota;
    [|assumption].
  destruct (section_found (strip l0)).
  - split; simpl; [now apply flush_inv | constructor].
  - destruct Hinv as [Hmap Hacc]. split; simpl; [assumption|].
    apply Forall_app. split; [assumption|].
    constructor; [|constructor]. now apply strip_stored_line.
Qed.

Lemma fold_seg_step_inv (lines : list string) :
  forall st : seg_state,
    Forall (fun p => mem_char "010" p = false) lines ->
    seg_inv st -> seg_inv (fold_left seg_step lines st).
Proof.
  induction lines as [|l lines IH]; intros st Hlines Hinv; [assumption|].
  apply Forall_cons_1 in Hlines as [Hl Hlines]. simpl.
  apply IH; [assumption|]. now apply seg_step_inv.
Qed.

(** Every value of the segmenter's map is a stored blob. *)
Lemma sections_stored (text k v : string) :
  _split_into_sections text !! k = Some v -> stored_blob v.
Proof.
  apply flush_inv, fold_seg_step_inv;
    [apply split_nl_no_newline | apply seg_init_inv].
Qed.

(** The entries that [s.split('\n\n')] and the [continue] on blank entries
    leave of a stored blob: the blob itself. *)
Lemma stored_blob_entries (v : string) :
  stored_blob v ->
  nonempty v = true
  /\ filter (fun entry => nonblank entry = true) (split (nl ++ nl) v) = [v].
Proof.
  intros (Hnone & Hne & Hstrip)%stored_blob_facts. split; [assumption|].
  rewrite (split_without_separator _ _ Hnone).
  now rewrite filter_cons_True, filter_nil.
Qed.

Lemma education_single (sections : gmap string string) (v : string) :
  sections !! "education" = Some v -> stored_blob v ->
  _extract_education sections = [education_entry v].
Proof.
  intros Hv [Hne Hentries]%stored_blob_entries.
  unfold _extract_education, get. rewrite Hv, Hne. simpl negb. cbv iota.
  now rewrite Hentries.
Qed.

Lemma projects_single (sections : gmap string string) (v : string) :
  sections !! "projects" = Some v -> stored_blob v ->
  _extract_projects sections = [project_entry v].
Proof.
  intros Hv [Hne Hentries]%stored_blob_entries.
  unfold _extract_projects, get. rewrite Hv, Hne. simpl negb. cbv iota.
  now rewrite Hentries.
Qed.

End SegmenterInvariant.

(** C10. For every text, every value of the segmenter's map is a
    newline-join of lines that are not blank and are stripped, so it holds
    no blank line; hence the education extractor and the projects
    extractor, which split their section on a blank line, each return
    exactly one entry whenever the map has their section. *)
Theorem sections_hold_no_blank_line (text : string) :
  (forall k v,
      RuleBasedParser._split_into_sections text !! k = Some v ->
      stored_blob v /\ contains (nl ++ nl) v = false)
  /\ (is_Some (RuleBasedParser._split_into_sections text !! "education") ->
      length (RuleBasedParser._extract_education
                (RuleBasedParser._split_into_sections text)) = 1%nat)
  /\ (is_Some (RuleBasedParser._split_into_sections text !! "projects") ->
      length (RuleBasedParser._extract_projects
                (RuleBasedParser._split_into_sections text)) = 1%nat).
Proof.
  split; [|split].
  - intros k v Hv. pose proof (sections_stored text k v Hv) as Hblob.
    split; [assumption|]. now apply stored_blob_facts.
  - intros [v Hv].
    rewrite (education_single _ v Hv (sections_stored text _ v Hv)).
    reflexivity.
  - intros [v Hv].
    rewrite (projects_single _ v Hv (sections_stored text _ v Hv)).
    reflexivity.
Qed.

Lemma sections_hold_no_blank_line_witness :
  (RuleBasedParser._split_into_sections two_entries_each !! "education"
   = Some ("State University" ++ nl ++ "BS in CS 2015")
   /\ contains (nl ++ nl) ("State University" ++ nl ++ "BS in CS 2015") = false)
  /\ length (RuleBasedParser._extract_education
               (RuleBasedParser._split_into_sections two_entries_each)) = 1%nat
  /\ length (RuleBasedParser._extract_projects
               (RuleBasedParser._split_into_sections two_entries_each)) = 1%nat.
Proof.
  destruct (sections_hold_no_blank_line two_entries_each)
    as (Hvalues & Heducation & Hprojects).
  split; [split; [reflexivity|]|split].
  - apply (Hvalues "education"). reflexivity.
  - apply Heducation. eexists. reflexivity.
  - apply Hprojects. eexists. reflexivity.
Defined.

(* ===================================================================== *)
(** ** More on the rule-based confidence *)
(* ===================================================================== *)

Lemma confidence_by_flags (r : ParsedResume.t) (text : string) :
  RuleBasedParser._calculate_confidence r text
  = confidence_of_flags (scored_fields r).
Proof. reflexivity. Qed.

Lemma scored_fields_cases (r : ParsedResume.t) :
  exists b1 b2 b3 b4 b5 b6 b7 b8 b9 : bool,
    scored_fields r = [b1; b2; b3; b4; b5; b6; b7; b8; b9].
Proof. unfold scored_fields. repeat eexists. Qed.

(** X1. The rule-based confidence is 1.0 exactly for the records with all
    nine scored fields populated, and 0.0 exactly for those with none. *)
Theorem confidence_extremes (r : ParsedResume.t) (text : string) :
  ((RuleBasedParser._calculate_confidence r text =? 1)%float
   = forallb (fun b => b) (scored_fields r))
  /\ ((RuleBasedParser._calculate_confidence r text =? 0)%float
      = negb (existsb (fun b => b) (scored_fields r))).
Proof.
  rewrite confidence_by_flags.
  destruct (scored_fields_cases r)
    as (b1 & b2 & b3 & b4 & b5 & b6 & b7 & b8 & b9 & ->).
  destruct b1, b2, b3, b4, b5, b6, b7, b8, b9; vm_compute; split; reflexivity.
Qed.

(** Without an experience entry the score stays below the threshold. *)
Lemma no_experience_below_threshold (r : ParsedResume.t) (text : string) :
  ParsedResume.experience r = [] ->
  (RuleBasedParser._calculate_confidence r text
   <? settings.RULE_CONFIDENCE_THRESHOLD)%float = true.
Proof.
  rewrite confidence_by_flags. intros Hexp.
  assert (Hflag : nth 3 (scored_fields r) false = false)
    by (unfold scored_fields; simpl; now rewrite Hexp).
  destruct (scored_fields_cases r)
    as (b1 & b2 & b3 & b4 & b5 & b6 & b7 & b8 & b9 & E).
  rewrite E in *. simpl in Hflag. subst b4.
  destruct b1, b2, b3, b5, b6, b7, b8, b9; vm_compute; reflexivity.
Qed.

(** X2. A record without any experience entry scores below the escalation
    threshold, whatever else it holds; a record that has name, email,
    phone, experience, education and skills reaches it. *)
Theorem confidence_against_threshold (r : ParsedResume.t) (text : string) :
  (ParsedResume.experience r = [] ->
   (RuleBasedParser._calculate_confidence r text
    <? settings.RULE_CONFIDENCE_THRESHOLD)%float = true)
  /\ (firstn 6 (scored_fields r) = [true; true; true; true; true; true] ->
      (RuleBasedParser._calculate_confidence r text
       <? settings.RULE_CONFIDENCE_THRESHOLD)%float = false).
Proof.
  split; [apply no_experience_below_threshold|].
  rewrite confidence_by_flags.
  destruct (scored_fields_cases r)
    as (b1 & b2 & b3 & b4 & b5 & b6 & b7 & b8 & b9 & ->).
  simpl. intros [= -> -> -> -> -> ->].
  destruct b7, b8, b9; vm_compute; reflexivity.
Qed.

Lemma confidence_against_threshold_witness :
  (RuleBasedParser._calculate_confidence ParsedResume.default ""
   <? settings.RULE_CONFIDENCE_THRESHOLD)%float = true
  /\ (RuleBasedParser._calculate_confidence fully_populated ""
      <? settings.RULE_CONFIDENCE_THRESHOLD)%float = false.
Proof.
  split.
  - apply (proj1 (confidence_against_threshold ParsedResume.default "")).
    reflexivity.
  - apply (proj2 (confidence_against_threshold fully_populated "")).
    reflexivity.
Defined.

Lemma in_bool_lists (l : list bool) : In l (bool_lists (length l)).
Proof.
  induction l as [|b l IH]; simpl; [now left|].
  apply in_flat_map. exists l. split; [assumption|].
  destruct b; simpl; auto.
Qed.

Lemma confidence_monotone_checked :
  confidence_monotone_on (bool_lists 9) = true.
Proof. vm_compute. reflexivity. Qed.

(** X3. Populating more fields never lowers the rule-based confidence: if
    every scored field populated in [r1] is populated in [r2], the
    confidence of [r1] is at most that of [r2]. *)
Theorem confidence_monotone (r1 r2 : ParsedResume.t) (t1 t2 : string) :
  flags_le (scored_fields r1) (scored_fields r2) = true ->
  (RuleBasedParser._calculate_confidence r1 t1
   <=? RuleBasedParser._calculate_confidence r2 t2)%float = true.
Proof.
  intros Hle. rewrite !confidence_by_flags.
  pose proof confidence_monotone_checked as Hall.
  unfold confidence_monotone_on in Hall.
  rewrite forallb_forall in Hall.
  specialize (Hall (scored_fields r1) (in_bool_lists (scored_fields r1))).
  rewrite forallb_forall in Hall.
  specialize (Hall (scored_fields r2) (in_bool_lists (scored_fields r2))).
  rewrite Hle in Hall. exact Hall.
Qed.

Lemma confidence_monotone_witness :
  (RuleBasedParser._calculate_confidence scenario_A_record ""
   <=? RuleBasedParser._calculate_confidence fully_populated "")%float = true.
Proof.
  apply (confidence_monotone scenario_A_record fully_populated "" "").
  reflexivity.
Defined.

(* ===================================================================== *)
(** ** The route on every request *)
(* ===================================================================== *)

Section RouteGeneral.
Variable W : World.
Variable llm : string -> string -> exn + (ParsedResume.t * option float).

(** Every way the body of the outer [try] can end. *)
Lemma route_body_cases file use_llm_fallback llm_provider log :
  let run := routes.parse_resume_sync_body W llm file use_llm_fallback
                                           llm_provider log in
  (exists status detail,
      run = (inl (HTTPException status detail), log)
      /\ (status = 400%Z \/ status = 413%Z))
  \/ (exists name e,
         filename file = Some name
         /\ extract_text W (content file) name = inl e
         /\ run = (inl e, (log ++ [routes.CallExtractText name])%list))
  \/ (exists name,
         filename file = Some name
         /\ run = (inl no_text_error,
                   (log ++ [routes.CallExtractText name])%list))
  \/ (exists name text method e,
         filename file = Some name
         /\ extract_text W (content file) name = inr (text, method)
         /\ RuleBasedParser.parse W text = inl e
         /\ run = (inl e, (log ++ [routes.CallExtractText name;
                                   routes.CallRuleParse text])%list))
  \/ (exists name text method r1 c1,
         filename file = Some name
         /\ extract_text W (content file) name = inr (text, method)
         /\ RuleBasedParser.parse W text = inr (r1, c1)
         /\ run = (inr (success_response W
                          (merged llm text llm_provider use_llm_fallback
                                  r1 c1)),
                   (log ++ [routes.CallExtractText name;
                            routes.CallRuleParse text]
                        ++ fallback_events llm text llm_provider
                                           use_llm_fallback c1)%list)).
Proof.
  cbv zeta. unfold routes.parse_resume_sync_body.
  destruct (filename file) as [name|] eqn:Hname;
    [|left; do 2 eexists; split; [reflexivity|now left]].
  change (truthy (Some name)) with (nonempty name).
  destruct (nonempty name) eqn:Hne;
    [|left; do 2 eexists; split; [reflexivity|now left]].
  destruct (mem _ settings.SUPPORTED_FORMATS);
    [|left; do 2 eexists; split; [reflexivity|now left]].
  destruct (_ <? _)%N;
    [left; do 2 eexists; split; [reflexivity|now right]|].
  right. cbv beta iota zeta delta [negb routes.bind routes.call].
  destruct (extract_text W (content file) name) as [e|[text method]] eqn:Hext.
  { left. exists name, e. repeat split; reflexivity || assumption. }
  right.
  destruct (nonempty (strip text)) eqn:Htext.
  2:{ left. exists name. split; reflexivity. }
  right. cbv beta iota zeta delta [negb routes.bind routes.call].
  destruct (RuleBasedParser.parse W text) as [e|[r1 c1]] eqn:Hparse.
  { left. exists name, text, method, e. rewrite <- app_assoc.
    repeat split; reflexivity || assumption. }
  right. exists name, text, method, r1, c1.
  repeat (split; [reflexivity|]).
  rewrite llm_fallback_run.
  unfold routes.ret, success_response. now rewrite <- !app_assoc.
Qed.

End RouteGeneral.

Lemma route_by_body (W : World)
    (llm : string -> string -> exn + (ParsedResume.t * option float))
    (file : UploadFile) (use_llm_fallback : bool) (llm_provider : string)
    (log : list routes.event) :
  routes.parse_resume_sync_with W llm file use_llm_fallback llm_provider log
  = match routes.parse_resume_sync_body W llm file use_llm_fallback
            llm_provider log with
    | (inl e, log') =>
        if is_HTTPException e then (inl e, log')
        else (inr (failure_response e), log')
    | (inr response, log') => (inr response, log')
    end.
Proof.
  unfold routes.parse_resume_sync_with, routes.try_except.
  destruct (routes.parse_resume_sync_body _ _ _ _ _ _) as [[e|a] log'];
    [|reflexivity].
  destruct (is_HTTPException e); reflexivity.
Qed.

Lemma llm_calls_fallback_le
    (llm : string -> string -> exn + (ParsedResume.t * option float))
    (text llm_provider : string) (use_llm_fallback : bool) (c1 : float) :
  (llm_calls (fallback_events llm text llm_provider use_llm_fallback c1)
   <= 1)%nat
  /\ rule_calls (fallback_events llm text llm_provider use_llm_fallback c1)
     = 0%nat.
Proof.
  unfold fallback_events, llm_calls, rule_calls.
  destruct (_ && _); [|split; simpl; lia].
  destruct (llm text llm_provider) as [e | [r2 [c2|]]];
    split; simpl; lia.
Qed.

(** X4. Whenever the route raises, what it raises is an [HTTPException],
    and the generative extractor has not been called; every other failure
    comes back as a response. *)
Theorem route_raises_only_http (W : World)
    (llm : string -> string -> exn + (ParsedResume.t * option float))
    (file : UploadFile) (use_llm_fallback : bool) (llm_provider : string)
    (log log' : list routes.event) (e : exn) :
  routes.parse_resume_sync_with W llm file use_llm_fallback llm_provider log
  = (inl e, log') ->
  is_HTTPException e = true /\ llm_calls log' = llm_calls log.
Proof.
  rewrite route_by_body.
  destruct (route_body_cases W llm file use_llm_fallback llm_provider log)
    as [(st & d & -> & _)
       |[(name & e0 & _ & _ & ->)
        |[(name & _ & ->)
         |[(name & text & method & e0 & _ & _ & _ & ->)
          |(name & text & method & r1 & c1 & _ & _ & _ & ->)]]]];
    simpl; try discriminate.
  - intros [= <- <-]. auto.
  - destruct (is_HTTPException e0) eqn:Hhttp; [|discriminate].
    intros [= <- <-]. split; [assumption|].
    rewrite llm_calls_app. unfold llm_calls. simpl. lia.
  - intros [= <- <-]. split; [reflexivity|].
    rewrite llm_calls_app. unfold llm_calls. simpl. lia.
  - destruct (is_HTTPException e0) eqn:Hhttp; [|discriminate].
    intros [= <- <-]. split; [assumption|].
    rewrite llm_calls_app. unfold llm_calls. simpl. lia.
Qed.

Lemma route_raises_only_http_witness :
  is_HTTPException no_text_error = true
  /\ llm_calls [routes.CallExtractText "resume.txt"] = llm_calls [].
Proof.
  apply (route_raises_only_http offline_world (LLMParser.parse offline_world)
           (upload "   ") true "openai" []).
  reflexivity.
Defined.

(** X5. In a response of the route the success flag, the record and the
    error message go together: a success carries a record, stamped with the
    processing time, and no error; a failure carries no record and an error
    that starts with "Processing failed: ". *)
Theorem route_response_shape (W : World)
    (llm : string -> string -> exn + (ParsedResume.t * option float))
    (file : UploadFile) (use_llm_fallback : bool) (llm_provider : string)
    (log log' : list routes.event) (response : ParseResponse.t) :
  routes.parse_resume_sync_with W llm file use_llm_fallback llm_provider log
  = (inr response, log') ->
  (ParseResponse.success response = true
   /\ ParseResponse.error response = None
   /\ exists r, ParseResponse.data response = Some r
                /\ ParsedResume.processing_time r = elapsed W)
  \/ (ParseResponse.success response = false
      /\ ParseResponse.data response = None
      /\ exists msg, ParseResponse.error response
                     = Some ("Processing failed: " ++ msg)).
Proof.
  rewrite route_by_body.
  destruct (route_body_cases W llm file use_llm_fallback llm_provider log)
    as [(st & d & -> & _)
       |[(name & e0 & _ & _ & ->)
        |[(name & _ & ->)
         |[(name & text & method & e0 & _ & _ & _ & ->)
          |(name & text & method & r1 & c1 & _ & _ & _ & ->)]]]];
    simpl; try discriminate.
  - destruct (is_HTTPException e0); [discriminate|].
    intros [= <- _]. right. simpl. eauto.
  - destruct (is_HTTPException e0); [discriminate|].
    intros [= <- _]. right. simpl. eauto.
  - intros [= <- _]. left. simpl. eauto.
Qed.

Lemma route_response_shape_witness :
  (ParseResponse.success (success_response offline_world scenario_A_record)
   = true
   /\ ParseResponse.error (success_response offline_world scenario_A_record)
      = None
   /\ exists r,
       ParseResponse.data (success_response offline_world scenario_A_record)
       = Some r
       /\ ParsedResume.processing_time r = elapsed offline_world)
  \/ (ParseResponse.success (success_response offline_world scenario_A_record)
      = false
      /\ ParseResponse.data (success_response offline_world scenario_A_record)
         = None
      /\ exists msg,
          ParseResponse.error (success_response offline_world scenario_A_record)
          = Some ("Processing failed: " ++ msg)).
Proof.
  apply (route_response_shape offline_world (LLMParser.parse offline_world)
           (upload scenario_A) false "openai" []
           [routes.CallExtractText "resume.txt"; routes.CallRuleParse scenario_A]).
  reflexivity.
Defined.

(** X6. On every request each extractor is called at most once, and the
    generative one only after the rule-based one has been called. *)
Theorem route_calls_bounded (W : World)
    (llm : string -> string -> exn + (ParsedResume.t * option float))
    (file : UploadFile) (use_llm_fallback : bool) (llm_provider : string)
    (log : list routes.event) :
  let log' := snd (routes.parse_resume_sync_with W llm file use_llm_fallback
                                                 llm_provider log) in
  (rule_calls log <= rule_calls log' <= rule_calls log + 1)%nat
  /\ (llm_calls log <= llm_calls log' <= llm_calls log + 1)%nat
  /\ (llm_calls log' - llm_calls log
      <= rule_calls log' - rule_calls log)%nat.
Proof.
  cbv zeta. rewrite route_by_body.
  pose proof (llm_calls_fallback_le llm) as Hfb.
  destruct (route_body_cases W llm file use_llm_fallback llm_provider log)
    as [(st & d & -> & _)
       |[(name & e0 & _ & _ & ->)
        |[(name & _ & ->)
         |[(name & text & method & e0 & _ & _ & _ & ->)
          |(name & text & method & r1 & c1 & _ & _ & _ & ->)]]]];
    try destruct (is_HTTPException _); cbn [snd is_HTTPException no_text_error];
    rewrite ?rule_calls_app, ?llm_calls_app;
    try (destruct (Hfb text llm_provider use_llm_fallback c1) as [H1 H2];
         rewrite H2);
    cbn [rule_calls llm_calls List.filter is_rule_call is_llm_call length];
    lia.
Qed.

(** X7. A request that fails one of the three gates is refused with an
    [HTTPException] before any collaborator is called: status 400 without a
    file name or with an extension outside the supported formats, status
    413 above the size limit. *)
Theorem route_gates (W : World)
    (llm : string -> string -> exn + (ParsedResume.t * option float))
    (file : UploadFile) (use_llm_fallback : bool) (llm_provider : string)
    (log : list routes.event) :
  let run := routes.parse_resume_sync_with W llm file use_llm_fallback
                                           llm_provider log in
  (truthy (filename file) = false ->
   run = (inl (HTTPException 400 "No file provided"), log))
  /\ (forall name,
         filename file = Some name -> nonempty name = true ->
         mem (lower (last_item (split "." name))) settings.SUPPORTED_FORMATS
         = false ->
         exists detail, run = (inl (HTTPException 400 detail), log))
  /\ (forall name,
         filename file = Some name -> nonempty name = true ->
         mem (lower (last_item (split "." name))) settings.SUPPORTED_FORMATS
         = true ->
         (settings.MAX_FILE_SIZE <? N.of_nat (len (content file)))%N = true ->
         run = (inl (HTTPException 413 "File too large"), log)).
Proof.
  cbv zeta. unfold routes.parse_resume_sync_with, routes.try_except,
    routes.parse_resume_sync_body.
  split; [|split].
  - intros ->. reflexivity.
  - intros name -> Hne Hext.
    change (truthy (Some name)) with (nonempty name).
    rewrite Hne, Hext. eexists. reflexivity.
  - intros name -> Hne Hext Hsize.
    change (truthy (Some name)) with (nonempty name).
    rewrite Hne, Hext, Hsize. reflexivity.
Qed.

Lemma route_gates_witness :
  routes.parse_resume_sync_with offline_world (LLMParser.parse offline_world)
    {| filename := Some ""; content := scenario_A |} true "openai" []
  = (inl (HTTPException 400 "No file provided"), [])
  /\ exists detail,
      routes.parse_resume_sync_with offline_world
        (LLMParser.parse offline_world)
        {| filename := Some "resume.exe"; content := scenario_A |}
        true "openai" []
      = (inl (HTTPException 400 detail), []).
Proof.
  split.
  - apply (proj1 (route_gates offline_world (LLMParser.parse offline_world)
                    {| filename := Some ""; content := scenario_A |}
                    true "openai" [])).
    reflexivity.
  - apply (proj1 (proj2 (route_gates offline_world
                           (LLMParser.parse offline_world)
                           {| filename := Some "resume.exe";
                              content := scenario_A |}
                           true "openai" [])) "resume.exe");
      reflexivity.
Defined.

(** X8. A failure of a collaborator that is no [HTTPException] does not
    reach the caller as an exception: when the extraction bridge raises, and
    when the rule-based parser refuses the address it found, the route
    answers with [success=False] and the message of the exception, and the
    generative extractor is not called. *)
Theorem route_failure_response (W : World)
    (llm : string -> string -> exn + (ParsedResume.t * option float))
    (file : UploadFile) (name : string) (use_llm_fallback : bool)
    (llm_provider : string) (log : list routes.event) (e : exn) :
  passes_gates file name ->
  is_HTTPException e = false ->
  (extract_text W (content file) name = inl e ->
   routes.parse_resume_sync_with W llm file use_llm_fallback llm_provider log
   = (inr (failure_response e),
      (log ++ [routes.CallExtractText name])%list))
  /\ (forall text method,
         extract_text W (content file) name = inr (text, method) ->
         nonempty (strip text) = true ->
         RuleBasedParser.parse W text = inl e ->
         routes.parse_resume_sync_with W llm file use_llm_fallback
                                       llm_provider log
         = (inr (failure_response e),
            (log ++ [routes.CallExtractText name;
                     routes.CallRuleParse text])%list)).
Proof.
  intros (Hname & Hne & Hext & Hsize) Hhttp.
  unfold routes.parse_resume_sync_with, routes.try_except,
    routes.parse_resume_sync_body.
  rewrite Hname. change (truthy (Some name)) with (nonempty name).
  rewrite Hne, Hext, Hsize.
  cbv beta iota zeta delta [negb routes.bind routes.call].
  split.
  - intros ->. now rewrite Hhttp.
  - intros text method -> Htext Hparse. rewrite Htext.
    cbv beta iota zeta delta [negb routes.bind routes.call].
    rewrite Hparse, Hhttp, <- app_assoc. reflexivity.
Qed.

Lemma route_failure_response_witness :
  routes.parse_resume_sync_with broken_bridge_world
    (LLMParser.parse broken_bridge_world) (upload scenario_A) true "openai" []
  = (inr (failure_response
            (Exception "Text extraction failed: cannot open document")),
     [routes.CallExtractText "resume.txt"]).
Proof.
  apply (proj1 (route_failure_response broken_bridge_world
                  (LLMParser.parse broken_bridge_world) (upload scenario_A)
                  "resume.txt" true "openai" []
                  (Exception "Text extraction failed: cannot open document")
                  ltac:(repeat split; reflexivity) eq_refl)).
  reflexivity.
Defined.

(* ===================================================================== *)
(** ** The generative parser *)
(* ===================================================================== *)

(** X9. Whatever goes wrong inside [LLMParser.parse], the caller sees one
    [Exception] whose message starts with "LLM parsing failed: ", followed
    by the provider's own prefix or by the provider-unavailable text. *)
Theorem llm_parse_failure_is_wrapped (W : World) (text provider : string)
    (e : exn) :
  LLMParser.parse W text provider = inl e ->
  exists msg,
    e = Exception ("LLM parsing failed: " ++ msg)
    /\ ((exists m, msg = "OpenAI parsing error: " ++ m)
        \/ (exists m, msg = "Anthropic parsing error: " ++ m)
        \/ msg = "Provider " ++ provider ++ " not available or not configured").
Proof.
  unfold LLMParser.parse, LLMParser._parse_with_openai,
    LLMParser._parse_with_anthropic, Raise.try_except, Raise.bind.
  destruct (String.eqb provider "openai" && LLMParser.openai_client W).
  - destruct (openai_create W _) as [e0|content].
    { intros [= <-]. eexists. split; [reflexivity|]. left. eauto. }
    destruct (json_loads W content) as [e0|result]; [|discriminate].
    intros [= <-]. eexists. split; [reflexivity|]. left. eauto.
  - destruct (String.eqb provider "anthropic" && LLMParser.anthropic_client W).
    + destruct (anthropic_create W _) as [e0|content].
      { intros [= <-]. eexists. split; [reflexivity|]. right. left. eauto. }
      destruct (json_loads W _) as [e0|result]; [|discriminate].
      intros [= <-]. eexists. split; [reflexivity|]. right. left. eauto.
    + intros [= <-]. eexists. split; [reflexivity|]. right. right. reflexivity.
Qed.

Lemma llm_parse_failure_is_wrapped_witness :
  exists msg,
    provider_unavailable "openai" = Exception ("LLM parsing failed: " ++ msg)
    /\ ((exists m, msg = "OpenAI parsing error: " ++ m)
        \/ (exists m, msg = "Anthropic parsing error: " ++ m)
        \/ msg = "Provider " ++ "openai" ++ " not available or not configured").
Proof.
  apply (llm_parse_failure_is_wrapped offline_world scenario_A "openai").
  reflexivity.
Defined.

(** X10. No silent substitution of providers: unless the provider named by
    the caller is "openai" or "anthropic", spelled so, and that provider's
    key is set, the parse fails with the provider-unavailable error, even
    when the other provider is configured. *)
Theorem llm_parse_provider_unavailable (W : World) (text provider : string) :
  provider_ready W provider = false ->
  LLMParser.parse W text provider = inl (provider_unavailable provider).
Proof.
  unfold provider_ready, LLMParser.parse, Raise.try_except.
  intros [H1 H2]%orb_false_elim. now rewrite H1, H2.
Qed.

Lemma llm_parse_provider_unavailable_witness :
  LLMParser.parse chatty_world scenario_A "openai"
  = inl (provider_unavailable "openai")
  /\ LLMParser.parse chatty_world scenario_A "Anthropic"
     = inl (provider_unavailable "Anthropic").
Proof.
  split.
  - apply (llm_parse_provider_unavailable chatty_world scenario_A "openai").
    reflexivity.
  - apply (llm_parse_provider_unavailable chatty_world scenario_A "Anthropic").
    reflexivity.
Defined.

(** X11. A record that the generative parser returns was produced by the
    provider the caller named: that provider is ready, and the record is
    tagged "llm_" followed by its name. *)
Theorem llm_parse_method_tag (W : World) (text provider : string)
    (r : ParsedResume.t) (c : option float) :
  LLMParser.parse W text provider = inr (r, c) ->
  provider_ready W provider = true
  /\ ParsedResume.parsing_method r = "llm_" ++ provider.
Proof.
  unfold provider_ready, LLMParser.parse, LLMParser._parse_with_openai,
    LLMParser._parse_with_anthropic, Raise.try_except, Raise.bind.
  destruct (String.eqb provider "openai") eqn:Ho; simpl andb.
  - apply String.eqb_eq in Ho. subst provider.
    destruct (LLMParser.openai_client W); simpl.
    + destruct (openai_create W _) as [e0|content]; [discriminate|].
      destruct (json_loads W content) as [e0|result]; [discriminate|].
      intros [= <- _]. split; reflexivity.
    + discriminate.
  - destruct (String.eqb provider "anthropic") eqn:Ha; simpl andb;
      [|discriminate].
    apply String.eqb_eq in Ha. subst provider.
    destruct (LLMParser.anthropic_client W); simpl; [|discriminate].
    destruct (anthropic_create W _) as [e0|content]; [discriminate|].
    destruct (json_loads W _) as [e0|result]; [discriminate|].
    intros [= <- _]. split; reflexivity.
Qed.

Lemma llm_parse_method_tag_witness :
  provider_ready online_world "openai" = true
  /\ ParsedResume.parsing_method
       (ParsedResume.set_confidence_score None
          (ParsedResume.set_parsing_method "llm_openai" fully_populated))
     = "llm_" ++ "openai".
Proof.
  apply (llm_parse_method_tag online_world scenario_A "openai" _ None).
  reflexivity.
Defined.

(** *** Carving the JSON object out of a free-text answer *)

Lemma str_app_assoc (a b c : string) : (a ++ b) ++ c = a ++ (b ++ c).
Proof.
  induction a as [|x a IH]; [reflexivity|].
  change (String x ((a ++ b) ++ c) = String x (a ++ (b ++ c))).
  now rewrite IH.
Qed.

Lemma str_length_app (a b : string) :
  String.length (a ++ b) = (String.length a + String.length b)%nat.
Proof.
  induction a as [|x a IH]; [reflexivity|].
  change (S (String.length (a ++ b))
          = S (String.length a + String.length b)).
  now rewrite IH.
Qed.

Lemma find_first (c : ascii) (a rest : string) :
  mem_char c a = false ->
  find c (a ++ String c rest) = Z.of_nat (String.length a).
Proof.
  induction a as [|d a IH]; intros Ha.
  - simpl. now rewrite Ascii.eqb_refl.
  - change (mem_char c (String d a)) with (Ascii.eqb c d || mem_char c a) in Ha.
    apply orb_false_elim in Ha as [Hd Ha].
    change (find c (String d a ++ String c rest))
      with (if Ascii.eqb c d then 0%Z
            else match find c (a ++ String c rest) with
                 | Zneg _ => (-1)%Z
                 | i => (i + 1)%Z
                 end).
    rewrite Hd, (IH Ha).
    change (String.length (String d a)) with (S (String.length a)).
    destruct (Z.of_nat (String.length a)) eqn:E; lia.
Qed.

Lemma find_absent (c : ascii) (s : string) :
  mem_char c s = false -> find c s = (-1)%Z.
Proof.
  induction s as [|d s IH]; intros Hs; [reflexivity|].
  change (mem_char c (String d s)) with (Ascii.eqb c d || mem_char c s) in Hs.
  apply orb_false_elim in Hs as [Hd Hs].
  change (find c (String d s))
    with (if Ascii.eqb c d then 0%Z
          else match find c s with Zneg _ => (-1)%Z | i => (i + 1)%Z end).
  now rewrite Hd, (IH Hs).
Qed.

Lemma rfind_absent (c : ascii) (s : string) :
  mem_char c s = false -> rfind c s = (-1)%Z.
Proof.
  induction s as [|d s IH]; intros Hs; [reflexivity|].
  change (mem_char c (String d s)) with (Ascii.eqb c d || mem_char c s) in Hs.
  apply orb_false_elim in Hs as [Hd Hs].
  change (rfind c (String d s))
    with (match rfind c s with
          | Zneg _ => if Ascii.eqb c d then 0%Z else (-1)%Z
          | i => (i + 1)%Z
          end).
  now rewrite (IH Hs), Hd.
Qed.

Lemma rfind_last (c : ascii) (pre tail : string) :
  mem_char c tail = false ->
  rfind c (pre ++ String c tail) = Z.of_nat (String.length pre).
Proof.
  intros Htail. induction pre as [|d pre IH].
  - change (rfind c ("" ++ String c tail))
      with (match rfind c tail with
            | Zneg _ => if Ascii.eqb c c then 0%Z else (-1)%Z
            | i => (i + 1)%Z
            end).
    now rewrite (rfind_absent c tail Htail), Ascii.eqb_refl.
  - change (rfind c (String d pre ++ String c tail))
      with (match rfind c (pre ++ String c tail) with
            | Zneg _ => if Ascii.eqb c d then 0%Z else (-1)%Z
            | i => (i + 1)%Z
            end).
    rewrite IH.
    change (String.length (String d pre)) with (S (String.length pre)).
    destruct (Z.of_nat (String.length pre)) eqn:E; lia.
Qed.

Lemma drop_app (a b : string) : drop (String.length a) (a ++ b) = b.
Proof. induction a as [|x a IH]; simpl; [now destruct b|assumption]. Qed.

Lemma take_app (a b : string) : take (String.length a) (a ++ b) = a.
Proof.
  induction a as [|x a IH]; simpl; [now destruct b|]. now rewrite IH.
Qed.

Lemma clamp_inside (n k : nat) : (k <= n)%nat -> clamp n (Z.of_nat k) = k.
Proof.
  intros Hk. unfold clamp.
  destruct (Z.of_nat k <? 0)%Z eqn:E; [lia|]. lia.
Qed.

(** From the first [{] to the last [}], both included. *)
Lemma carve_object (a b c : string) :
  mem_char "{" a = false ->
  mem_char "}" c = false ->
  let content := a ++ String "{" (b ++ String "}" c) in
  slice (find "{" content) (rfind "}" content + 1) content
  = String "{" (b ++ String "}" "").
Proof.
  intros Ha Hc content.
  assert (Hfind : find "{" content = Z.of_nat (String.length a))
    by now apply find_first.
  assert (Hshape : content = (a ++ String "{" b) ++ String "}" c).
  { unfold content. now rewrite str_app_assoc. }
  assert (Hrfind : rfind "}" content
                   = Z.of_nat (String.length (a ++ String "{" b))).
  { rewrite Hshape. now apply rfind_last. }
  unfold slice. rewrite Hfind, Hrfind.
  replace (Z.of_nat (String.length (a ++ String "{" b)) + 1)%Z
    with (Z.of_nat (S (String.length (a ++ String "{" b)))) by lia.
  assert (Hlen : String.length content
                 = (String.length a + S (String.length b
                                         + S (String.length c)))%nat).
  { unfold content. rewrite str_length_app. simpl.
    rewrite str_length_app. reflexivity. }
  assert (Hpre : String.length (a ++ String "{" b)
                 = (String.length a + S (String.length b))%nat).
  { rewrite str_length_app. reflexivity. }
  rewrite !clamp_inside by (rewrite ?Hpre, Hlen; lia).
  unfold content. rewrite drop_app, Hpre.
  replace (S (String.length a + S (String.length b)) - String.length a)%nat
    with (String.length (String "{" (b ++ String "}" ""))).
  2:{ simpl. rewrite str_length_app. simpl. lia. }
  replace (String "{" (b ++ String "}" c))
    with (String "{" (b ++ String "}" "") ++ c).
  2:{ change (String "{" ((b ++ String "}" "") ++ c)
              = String "{" (b ++ String "}" c)).
      now rewrite str_app_assoc. }
  apply take_app.
Qed.

(** Without any brace nothing is carved. *)
Lemma carve_nothing (content : string) :
  mem_char "{" content = false ->
  mem_char "}" content = false ->
  slice (find "{" content) (rfind "}" content + 1) content = "".
Proof.
  intros Ho Hc. rewrite (find_absent _ _ Ho), (rfind_absent _ _ Hc).
  unfold slice. change (-1 + 1)%Z with 0%Z.
  assert (H0 : clamp (String.length content) 0 = 0%nat)
    by (unfold clamp; simpl; lia).
  rewrite H0. reflexivity.
Qed.

(** X12. The second provider answers in free text, and the parser hands to
    [json.loads] exactly the span from the first [{] to the last [}] of the
    answer, whatever commentary surrounds it; an answer without any brace
    hands it the empty string. The outcome of the parse is then the outcome
    of decoding that span. *)
Theorem anthropic_payload_is_carved (W : World) (text : string) :
  (forall a b c,
      mem_char "{" a = false -> mem_char "}" c = false ->
      anthropic_create W (LLMParser._create_parsing_prompt text)
      = inr (a ++ String "{" (b ++ String "}" c)) ->
      LLMParser._parse_with_anthropic W text
      = match json_loads W (String "{" (b ++ String "}" "")) with
        | inl e => inl (Exception ("Anthropic parsing error: " ++ str_exn e))
        | inr result => inr (LLMParser.finish W "llm_anthropic" result)
        end)
  /\ (forall content,
         mem_char "{" content = false -> mem_char "}" content = false ->
         anthropic_create W (LLMParser._create_parsing_prompt text)
         = inr content ->
         LLMParser._parse_with_anthropic W text
         = match json_loads W "" with
           | inl e => inl (Exception ("Anthropic parsing error: " ++ str_exn e))
           | inr result => inr (LLMParser.finish W "llm_anthropic" result)
           end).
Proof.
  split.
  - intros a b c Ha Hc Hanswer.
    unfold LLMParser._parse_with_anthropic, Raise.try_except, Raise.bind.
    rewrite Hanswer. cbv zeta.
    rewrite (carve_object a b c Ha Hc).
    destruct (json_loads W _); reflexivity.
  - intros content Ho Hc Hanswer.
    unfold LLMParser._parse_with_anthropic, Raise.try_except, Raise.bind.
    rewrite Hanswer. cbv zeta.
    rewrite (carve_nothing content Ho Hc).
    destruct (json_loads W _); reflexivity.
Qed.

Lemma anthropic_payload_is_carved_witness :
  LLMParser._parse_with_anthropic chatty_world scenario_A
  = inr (LLMParser.finish chatty_world "llm_anthropic" (JObj [])).
Proof.
  apply (proj1 (anthropic_payload_is_carved chatty_world scenario_A)
           "Sure! " "" " Hope this helps."); reflexivity.
Defined.

(* ===================================================================== *)
(** ** More on the segmenter *)
(* ===================================================================== *)

Section SegmenterKeys.
Import RuleBasedParser.

Lemma find_section_in (items : list (string * list string)) (line s : string) :
  find_section items line = Some s -> In s (map fst items).
Proof.
  induction items as [|[section keywords] items IH]; simpl; [discriminate|].
  destruct (existsb _ keywords); [intros [= ->]; now left|].
  intros H. right. now apply IH.
Qed.

Lemma classify_header_keyword (l s : string) :
  classify l = Header s -> In s (map fst section_keywords).
Proof.
  unfold classify. destruct (nonempty (strip l)); [|discriminate].
  destruct (section_found (strip l)) as [s'|] eqn:E; [|discriminate].
  intros [= <-]. now apply (find_section_in _ (strip l)).
Qed.

Lemma classify_header_name (l s : string) :
  classify l = Header s -> In s section_names.
Proof. intros H. right. now apply (classify_header_keyword l). Qed.

Lemma never_header_for_header (l : string) :
  is_header_for "header" l = false.
Proof.
  unfold is_header_for. destruct (classify l) as [|s|c] eqn:E; try reflexivity.
  apply classify_header_keyword in E.
  apply String.eqb_neq. intros ->. vm_compute in E. intuition discriminate.
Qed.

Lemma fold_keys (lines : list string) :
  forall st : seg_state,
    In (current_section st) section_names ->
    (forall k, is_Some (sections st !! k) -> In k section_names) ->
    forall k, is_Some (flush (fold_left seg_step lines st) !! k) ->
              In k section_names.
Proof.
  assert (Hflush : forall st : seg_state,
             In (current_section st) section_names ->
             (forall k, is_Some (sections st !! k) -> In k section_names) ->
             forall k, is_Some (flush st !! k) -> In k section_names).
  { intros st Hcur Hmap k. unfold flush.
    destruct (truthy_list (current_content st)); [|apply Hmap].
    rewrite lookup_insert. destruct (decide (current_section st = k));
      [now subst k | apply Hmap]. }
  induction lines as [|l lines IH]; intros st Hcur Hmap; simpl.
  - now apply Hflush.
  - apply IH; rewrite seg_step_classify;
      destruct (classify l) as [|s|c] eqn:E; simpl; try assumption.
    + now apply (classify_header_name l).
    + now apply Hflush.
Qed.

End SegmenterKeys.

(** X13. The keys of the segmenter's map are "header" and names of the
    section dictionary, nothing else. *)
Theorem sections_keys_are_known (text k : string) :
  is_Some (RuleBasedParser._split_into_sections text !! k) ->
  In k ["header"; "experience"; "education"; "skills"; "certifications";
        "projects"; "summary"; "languages"].
Proof.
  intros H. apply (fold_keys (split nl text) RuleBasedParser.seg_init).
  - now left.
  - intros k' [v Hv]. simpl in Hv. now rewrite lookup_empty in Hv.
  - exact H.
Qed.

Lemma sections_keys_are_known_witness :
  In "experience" ["header"; "experience"; "education"; "skills";
                   "certifications"; "projects"; "summary"; "languages"].
Proof.
  apply (sections_keys_are_known scenario_A "experience").
  eexists. reflexivity.
Defined.

Section SegmenterHeaderBucket.
Import RuleBasedParser.

(** While no header is met the loop only accumulates. *)
Lemma fold_without_header (lines : list string) :
  forall st : seg_state,
    forallb (fun l => negb (is_header l)) lines = true ->
    fold_left seg_step lines st
    = {| sections := sections st;
         current_section := current_section st;
         current_content := current_content st ++ leading_content lines |}.
Proof.
  induction lines as [|l lines IH]; intros st Hlines; simpl.
  - rewrite app_nil_r. now destruct st.
  - simpl in Hlines. apply andb_prop in Hlines as [Hl Hlines].
    unfold is_header in Hl. rewrite seg_step_classify.
    destruct (classify l) as [|s|c]; [now apply IH | discriminate |].
    rewrite (IH _ Hlines). simpl. now rewrite <- app_assoc.
Qed.

(** From inside section [k] with nothing accumulated and nothing to come
    before the next header: the value for [k] stays as it is. *)
Lemma current_section_unwritten (k : string) (post : list string) :
  forall st : seg_state,
    current_section st = k ->
    forallb (fun l => negb (is_header_for k l)) post = true ->
    current_content st = [] ->
    leading_content post = [] ->
    flush (fold_left seg_step post st) !! k = sections st !! k.
Proof.
  induction post as [|l post IH]; intros st Hcur Hpost Hacc Hlead; simpl in *.
  - unfold flush. now rewrite Hacc.
  - apply andb_prop in Hpost as [Hl Hpost]. apply negb_true_iff in Hl.
    rewrite seg_step_classify.
    destruct (classify l) as [|s|c] eqn:Hk; [now apply IH | | discriminate].
    rewrite other_section_untouched; simpl; [| |assumption].
    + unfold flush. now rewrite Hacc.
    + eapply is_header_for_false; eassumption.
Qed.

End SegmenterHeaderBucket.

(** X14. The "header" bucket holds exactly the content lines that come
    before the first header line of the text, and no later line touches it;
    when there is no such line the key is absent. *)
Theorem header_bucket (text : string) :
  RuleBasedParser._split_into_sections text !! "header"
  = match leading_content (split nl text) with
    | [] => None
    | ls => Some (join nl ls)
    end.
Proof.
  unfold RuleBasedParser._split_into_sections.
  assert (Hnone : forallb (fun l => negb (is_header_for "header" l))
                          (split nl text) = true).
  { apply forallb_forall. intros l _. now rewrite never_header_for_header. }
  destruct (leading_content (split nl text)) as [|x ls] eqn:E.
  - rewrite (current_section_unwritten "header"); auto.
  - rewrite (current_section_flushed "header"); simpl; auto.
    + now rewrite E.
    + rewrite E. discriminate.
Qed.

(** X15. A text without any header line: the map holds the stripped
    non-blank lines under "header" and nothing else, every section
    extractor returns nothing, and the summary is absent. *)
Theorem no_header_document (text : string) :
  forallb (fun l => negb (is_header l)) (split nl text) = true ->
  let sections := RuleBasedParser._split_into_sections text in
  sections = match leading_content (split nl text) with
             | [] => ∅
             | ls => {["header" := join nl ls]}
             end
  /\ RuleBasedParser._extract_summary sections = None
  /\ RuleBasedParser._extract_experience sections = []
  /\ RuleBasedParser._extract_education sections = []
  /\ RuleBasedParser._extract_skills sections = []
  /\ RuleBasedParser._extract_certifications sections = []
  /\ RuleBasedParser._extract_projects sections = []
  /\ RuleBasedParser._extract_languages sections = [].
Proof.
  intros Hlines. cbv zeta.
  assert (Hmap : RuleBasedParser._split_into_sections text
                 = match leading_content (split nl text) with
                   | [] => ∅
                   | ls => {["header" := join nl ls]}
                   end).
  { unfold RuleBasedParser._split_into_sections.
    rewrite (fold_without_header _ _ Hlines). unfold RuleBasedParser.flush.
    simpl. destruct (leading_content (split nl text)); reflexivity. }
  rewrite Hmap.
  split; [reflexivity|].
  unfold RuleBasedParser._extract_summary,
    RuleBasedParser._extract_experience, RuleBasedParser._extract_education,
    RuleBasedParser._extract_skills, RuleBasedParser._extract_certifications,
    RuleBasedParser._extract_projects, RuleBasedParser._extract_languages,
    RuleBasedParser.get.
  destruct (leading_content (split nl text)) as [|x ls].
  - rewrite !lookup_empty. repeat split.
  - rewrite !lookup_singleton_ne by discriminate. repeat split.
Qed.

Lemma no_header_document_witness :
  RuleBasedParser._split_into_sections no_header_text
  = {["header" := "Jane Roe" ++ nl ++ "jane@roe.org" ++ nl
                   ++ "Built many things."]}
  /\ RuleBasedParser._extract_experience
       (RuleBasedParser._split_into_sections no_header_text) = [].
Proof.
  destruct (no_header_document no_header_text eq_refl) as (Hmap & _ & Hexp & _).
  split; [exact Hmap | exact Hexp].
Defined.

(* ===================================================================== *)
(** ** The lines the segmenter keeps *)
(* ===================================================================== *)

Section KeptLines.
Import RuleBasedParser.





(** *** [split] undoes [join] on lines without newline *)

Lemma split_from_nl_line (x : string) :
  mem_char "010" x = false -> split_from nl 0 x = (x, []).
Proof.
  induction x as [|c x IH]; intros Hx; [reflexivity|].
  change (mem_char "010" (String c x))
    with (Ascii.eqb "010" c || mem_char "010" x) in Hx.
  apply orb_false_elim in Hx as [Hc Hx].
  now rewrite split_from_nl_cons, Hc, (IH Hx).
Qed.




(** *** A stored value is its own [strip] *)

Lemma rstrip_app_nonempty (x t : string) :
  nonempty (rstrip t) = true -> rstrip (x ++ t) = x ++ rstrip t.
Proof.
  intros Ht. induction x as [|a x IH]; [reflexivity|].
  change (rstrip (String a x ++ t))
    with (match rstrip (x ++ t) with
          | EmptyString => if isspace a then EmptyString else String a EmptyString
          | r => String a r
          end).
  rewrite IH.
  change (String a x ++ rstrip t) with (String a (x ++ rstrip t)).
  destruct (x ++ rstrip t) eqn:E; [|reflexivity].
  destruct x; [|discriminate].
  change (rstrip t = EmptyString) in E. now rewrite E in Ht.
Qed.

Lemma stored_line_rstrip (l : string) : stored_line l -> rstrip l = l.
Proof.
  intros Hl. pose proof (stored_line_clean l Hl) as Hclean.
  destruct Hl as (_ & Hstrip & _). unfold strip in Hstrip.
  now rewrite (lstrip_clean l Hclean) in Hstrip.
Qed.

Lemma rstrip_join (ls : list string) :
  ls <> [] -> Forall stored_line ls -> rstrip (join nl ls) = join nl ls.
Proof.
  induction ls as [|x ls IH]; [contradiction|].
  intros _ Hall. apply Forall_cons_1 in Hall as [Hx Hls].
  destruct ls as [|y ls]; [now apply stored_line_rstrip|].
  specialize (IH ltac:(discriminate) Hls).
  change (join nl (x :: y :: ls)) with (x ++ String "010" (join nl (y :: ls))).
  assert (Ht : rstrip (String "010" (join nl (y :: ls)))
               = String "010" (join nl (y :: ls))).
  { change (rstrip (String "010" (join nl (y :: ls))))
      with (match rstrip (join nl (y :: ls)) with
            | EmptyString =>
                if isspace "010" then EmptyString else String "010" EmptyString
            | r => String "010" r
            end).
    rewrite IH.
    pose proof (join_clean (y :: ls) ltac:(discriminate) Hls) as Hclean.
    destruct (join nl (y :: ls)); [contradiction|reflexivity]. }
  rewrite rstrip_app_nonempty; rewrite Ht; reflexivity.
Qed.

Lemma stored_blob_strip (v : string) : stored_blob v -> strip v = v.
Proof.
  intros (ls & Hne & Hall & ->). unfold strip.
  rewrite (lstrip_clean _ (join_clean ls Hne Hall)).
  now apply rstrip_join.
Qed.

End KeptLines.



(** X17. The summary is the text the segmenter stored for the section,
    unchanged, and it is absent exactly when the section is. *)
Theorem summary_is_stored_text (text : string) :
  RuleBasedParser._extract_summary (RuleBasedParser._split_into_sections text)
  = RuleBasedParser._split_into_sections text !! "summary".
Proof.
  unfold RuleBasedParser._extract_summary, RuleBasedParser.get.
  destruct (RuleBasedParser._split_into_sections text !! "summary")
    as [v|] eqn:Hv; [|reflexivity].
  pose proof (sections_stored text _ v Hv) as Hblob.
  destruct (stored_blob_facts v Hblob) as (_ & -> & _).
  now rewrite (stored_blob_strip v Hblob).
Qed.



(* ===================================================================== *)
(** ** The matcher *)
(* ===================================================================== *)

Section Matcher.
Import Re.



End Matcher.

(* ===================================================================== *)
(** ** Personal information *)
(* ===================================================================== *)

Section Phone.
Import Re.




End Phone.



Lemma prefix_app (p x : string) : String.prefix p (p ++ x) = true.
Proof.
  induction p as [|c p IH]; [apply prefix_empty|].
  change (String c p ++ x) with (String c (p ++ x)).
  now rewrite prefix_cons, Ascii.eqb_refl, IH.
Qed.



(* ===================================================================== *)
(** ** The section extractors *)
(* ===================================================================== *)

Section Scanning.
Import Re.

Lemma scan_cons (r : regex) (prev : option ascii) (c : ascii) (s : string) :
  scan r prev 0 (String c s)
  = match match_at r prev (String c s) with
    | Some m =>
        match String.length (whole m) with
        | O => let '(p, ms) := scan r (Some c) 0 s in
               (EmptyString, (m, String c p) :: ms)
        | S n => let '(p, ms) := scan r (Some c) n s in
                 (EmptyString, (m, p) :: ms)
        end
    | None => let '(p, ms) := scan r (Some c) 0 s in (String c p, ms)
    end.
Proof. reflexivity. Qed.

Lemma match_at_chr (p : ascii -> bool) (prev : option ascii) (c : ascii)
    (s : string) :
  match_at (Chr p) prev (String c s)
  = if p c then Some {| whole := String c ""; group1 := None |} else None.
Proof.
  unfold match_at. simpl. destruct (p c); [|reflexivity].
  replace (S (String.length s) - String.length s)%nat with 1%nat by lia.
  reflexivity.
Qed.

(** Splitting on a character class leaves no character of the class in
    any piece. *)
Lemma scan_chr_pieces (p : ascii -> bool) (s : string) :
  forall prev,
    has_char p (fst (scan (Chr p) prev 0 s)) = false
    /\ Forall (fun ms => has_char p (snd ms) = false)
              (snd (scan (Chr p) prev 0 s)).
Proof.
  induction s as [|c s IH]; intros prev.
  - simpl. split; [reflexivity|constructor].
  - rewrite scan_cons, match_at_chr.
    destruct (IH (Some c)) as [Hp Hms].
    destruct (p c) eqn:Hc; simpl String.length; cbv iota;
      destruct (scan (Chr p) (Some c) 0 s) as [q ms]; simpl in *.
    + split; [reflexivity|]. now constructor.
    + split; [now rewrite Hc|assumption].
Qed.

Lemma split_chr_pieces (p : ascii -> bool) (s : string) :
  Forall (fun piece => has_char p piece = false) (Re.split (Chr p) s).
Proof.
  unfold Re.split. destruct (scan_chr_pieces p s None) as [Hp Hms].
  destruct (scan (Chr p) None 0 s) as [q ms]. simpl in *.
  constructor; [assumption|].
  induction Hms as [|[m piece] ms H _ IH]; simpl; constructor; assumption.
Qed.

(** A pattern that must start with a character of a class finds nothing in
    a text without such a character. *)
Lemma scan_needs_char (p : ascii -> bool) (X : regex) (s : string) :
  forall prev,
    has_char p s = false -> scan (Seq (Chr p) X) prev 0 s = (s, []).
Proof.
  induction s as [|c s IH]; intros prev Hs; [reflexivity|].
  simpl in Hs. apply orb_false_elim in Hs as [Hc Hs].
  rewrite scan_cons.
  assert (Hm : match_at (Seq (Chr p) X) prev (String c s) = None)
    by (unfold match_at; simpl; now rewrite Hc).
  now rewrite Hm, (IH (Some c) Hs).
Qed.

End Scanning.

Lemma has_char_eqb (c : ascii) (s : string) :
  has_char (Ascii.eqb c) s = mem_char c s.
Proof. induction s as [|d s IH]; [reflexivity|]. simpl. now rewrite IH. Qed.

Lemma has_char_lstrip (p : ascii -> bool) (s : string) :
  has_char p s = false -> has_char p (lstrip s) = false.
Proof.
  induction s as [|d s IH]; simpl; [auto|].
  intros [Hd Hs]%orb_false_elim.
  destruct (isspace d); [auto|]. simpl. now rewrite Hd, Hs.
Qed.

Lemma has_char_rstrip (p : ascii -> bool) (s : string) :
  has_char p s = false -> has_char p (rstrip s) = false.
Proof.
  induction s as [|d s IH]; simpl; [auto|].
  intros [Hd Hs]%orb_false_elim. specialize (IH Hs).
  destruct (rstrip s) as [|e r].
  - destruct (isspace d); simpl; [reflexivity|]. now rewrite Hd.
  - simpl in *. now rewrite Hd, IH.
Qed.

(** X21. When the map holds a non-empty skills section, the skills extractor
    returns exactly one group, labelled "Technical Skills", and each of its
    tokens is not empty, is stripped, and holds no comma, semicolon or
    newline. *)
Theorem skills_tokens (sections : gmap string string) (v : string) :
  sections !! "skills" = Some v ->
  nonempty v = true ->
  exists tokens,
    RuleBasedParser._extract_skills sections
    = [{| Skill.category := Some "Technical Skills"; Skill.skills := tokens |}]
    /\ Forall (fun t => nonempty t = true /\ strip t = t
                        /\ has_char skill_separator_char t = false) tokens.
Proof.
  intros Hv Hne. unfold RuleBasedParser._extract_skills, RuleBasedParser.get.
  rewrite Hv, Hne. simpl negb. cbv iota.
  eexists. split; [reflexivity|].
  pose proof (split_chr_pieces skill_separator_char v) as Hpieces.
  change (Re.Chr skill_separator_char) with RuleBasedParser.skill_separator
    in Hpieces.
  induction Hpieces as [|piece pieces Hpiece _ IH]; [constructor|].
  rewrite filter_cons. destruct (decide (nonempty (strip piece) = true));
    [|exact IH].
  simpl. constructor; [|exact IH].
  split; [assumption|]. split; [apply strip_idempotent|].
  unfold strip. now apply has_char_rstrip, has_char_lstrip.
Qed.

Lemma skills_tokens_witness :
  exists tokens,
    RuleBasedParser._extract_skills sample_sections
    = [{| Skill.category := Some "Technical Skills"; Skill.skills := tokens |}]
    /\ Forall (fun t => nonempty t = true /\ strip t = t
                        /\ has_char skill_separator_char t = false) tokens.
Proof.
  apply (skills_tokens sample_sections
           ("Python, Rocq;  OCaml " ++ nl ++ ",, Lean")); reflexivity.
Defined.

Section ExperienceEntries.
Import RuleBasedParser.

Lemma stripped_lines_nonempty (x : string) :
  Forall (fun l => nonempty l = true) (stripped_lines x).
Proof.
  unfold stripped_lines.
  induction (split nl x) as [|l ls IH]; [constructor|].
  rewrite filter_cons. destruct (decide (nonempty (strip l) = true));
    [|exact IH].
  simpl. now constructor.
Qed.

Lemma nonempty_app (a b : string) :
  nonempty a = true -> nonempty (a ++ b) = true.
Proof. destruct a; [discriminate|reflexivity]. Qed.

Lemma join_nonempty (ls : list string) :
  ls <> [] -> Forall (fun l => nonempty l = true) ls ->
  nonempty (join nl ls) = true.
Proof.
  destruct ls as [|x ls]; [contradiction|]. intros _ Hall.
  apply Forall_cons_1 in Hall as [Hx _].
  destruct ls; simpl; [assumption|]. now apply nonempty_app.
Qed.

Lemma experience_entry_shape (x : string) (e : Experience.t) :
  experience_entry x = Some e -> experience_shape e.
Proof.
  unfold experience_entry.
  destruct (nonempty (strip x)); simpl negb; cbv iota; [|discriminate].
  pose proof (stripped_lines_nonempty x) as Hall.
  destruct (stripped_lines x) as [|l1 [|l2 ls]] eqn:E; simpl Nat.ltb;
    cbv iota; try discriminate.
  apply Forall_cons_1 in Hall as [_ Hall].
  assert (Hdesc : nonempty (join nl (l2 :: ls)) = true)
    by (apply join_nonempty; [discriminate|assumption]).
  assert (Hdates : forall dates : list string,
             nth_error dates 0 = None -> nth_error dates 1 = None)
    by (intros [|d dates]; [reflexivity|discriminate]).
  destruct (contains "|" _); [|destruct (contains "," _)];
    intros [= <-]; unfold experience_shape; simpl;
    (split; [discriminate|]); (split; [discriminate|]);
    (split; [eexists; split; [reflexivity|exact Hdesc]|]);
    (split; [reflexivity|]); apply Hdates.
Qed.

Lemma Forall_omap {A B : Type} (P : B -> Prop) (f : A -> option B)
    (l : list A) :
  (forall x y, f x = Some y -> P y) -> Forall P (omap f l).
Proof.
  intros Hf. induction l as [|x l IH]; simpl; [constructor|].
  destruct (f x) as [y|] eqn:E; [|exact IH].
  constructor; [now apply (Hf x)|exact IH].
Qed.

End ExperienceEntries.

(** X22. Every experience entry the rule-based parser returns has a
    position, a current flag, a non-empty description and no achievements;
    it has an end date only if it has a start date. The company may be
    absent, the position never. *)
Theorem experience_entries_shape (sections : gmap string string) :
  Forall experience_shape (RuleBasedParser._extract_experience sections).
Proof.
  unfold RuleBasedParser._extract_experience.
  destruct (nonempty _); simpl negb; cbv iota; [|constructor].
  apply Forall_omap. exact experience_entry_shape.
Qed.

(** X23. An experience section of a single line yields no entry: an entry
    needs a first line and at least one more. *)
Theorem experience_needs_two_lines (sections : gmap string string)
    (l : string) :
  sections !! "experience" = Some l ->
  mem_char "010" l = false ->
  RuleBasedParser._extract_experience sections = [].
Proof.
  intros Hl Hnl.
  unfold RuleBasedParser._extract_experience, RuleBasedParser.get.
  rewrite Hl. destruct (nonempty l); simpl negb; cbv iota; [|reflexivity].
  assert (Hsplit : Re.split RuleBasedParser.entry_boundary l = [l]).
  { unfold Re.split, RuleBasedParser.entry_boundary, Re.Lit.
    rewrite scan_needs_char; [reflexivity|]. now rewrite has_char_eqb. }
  rewrite Hsplit. simpl.
  assert (Hentry : RuleBasedParser.experience_entry l = None).
  { unfold RuleBasedParser.experience_entry, RuleBasedParser.stripped_lines.
    destruct (nonempty (strip l)) eqn:Hne; simpl negb; cbv iota;
      [|reflexivity].
    unfold split. rewrite (split_from_nl_line l Hnl).
    rewrite filter_cons_True, filter_nil by assumption. reflexivity. }
  now rewrite Hentry.
Qed.

Lemma experience_needs_two_lines_witness :
  RuleBasedParser._extract_experience sample_sections = [].
Proof.
  apply (experience_needs_two_lines sample_sections "Senior Dev | Acme Corp");
    reflexivity.
Defined.



(* ===================================================================== *)
(** ** The rule-based parse as a whole *)
(* ===================================================================== *)

(** X25. What [RuleBasedParser.parse] hands back. When it returns, the
    record is tagged "rule_based", carries the returned confidence, which
    lies in [0, 1], and has no processing time yet; and if the record has
    no experience entry the confidence is below the escalation threshold.
    When it raises, the exception is a validation error, and the validator
    refused an address. *)
Theorem rule_parse_postconditions (W : World) (text : string) :
  match RuleBasedParser.parse W text with
  | inr (r, c) =>
      ParsedResume.parsing_method r = "rule_based"
      /\ ParsedResume.confidence_score r = Some c
      /\ ParsedResume.processing_time r = 0%float
      /\ (0 <=? c)%float = true /\ (c <=? 1)%float = true
      /\ (ParsedResume.experience r = [] ->
          (c <? settings.RULE_CONFIDENCE_THRESHOLD)%float = true)
  | inl e =>
      (exists msg, e = ValidationError msg)
      /\ exists address, validate_email W address = None
  end.
Proof.
  unfold RuleBasedParser.parse.
  destruct (RuleBasedParser._extract_personal_info W text _) as [e|info] eqn:E.
  - unfold RuleBasedParser._extract_personal_info in E.
    destruct (RuleBasedParser.first_or_None
                (Re.findall RuleBasedParser.email_pattern _)); [|discriminate].
    destruct (validate_email W s) eqn:Hv; [discriminate|].
    injection E as <-. eauto.
  - match goal with
    | |- context [RuleBasedParser._calculate_confidence ?r ?t] =>
        pose proof (rule_confidence_bounds r t) as [H0 H1];
        pose proof (no_experience_below_threshold r t) as Hexp
    end.
    simpl. repeat split; auto.
Qed.

Lemma rule_parse_postconditions_witness :
  match RuleBasedParser.parse offline_world no_header_text with
  | inr (r, c) =>
      ParsedResume.experience r = []
      /\ (c <? settings.RULE_CONFIDENCE_THRESHOLD)%float = true
  | inl _ => False
  end.
Proof.
  pose proof (rule_parse_postconditions offline_world no_header_text) as H.
  destruct (RuleBasedParser.parse offline_world no_header_text)
    as [e|[r c]] eqn:E.
  - vm_compute in E. discriminate E.
  - destruct H as (_ & _ & _ & _ & _ & Hexp).
    assert (Hnone : ParsedResume.experience r = []).
    { vm_compute in E. injection E as <- _. reflexivity. }
    split; [exact Hnone | exact (Hexp Hnone)].
Defined.

(* ===================================================================== *)
(** ** The prompt *)
(* ===================================================================== *)

Lemma contains_itself (x b : string) : contains x (x ++ b) = true.
Proof.
  destruct x as [|c x]; [destruct b; reflexivity|].
  change (contains (String c x) (String c x ++ b))
    with (String.prefix (String c x) (String c x ++ b)
          || contains (String c x) (x ++ b)).
  now rewrite prefix_app.
Qed.

Lemma contains_later (x a t : string) :
  contains x t = true -> contains x (a ++ t) = true.
Proof.
  intros Ht. induction a as [|c a IH]; [assumption|].
  change (contains x (String c a ++ t))
    with (String.prefix x (String c (a ++ t)) || contains x (a ++ t)).
  rewrite IH. apply orb_true_r.
Qed.

(** X26. The user message embeds the resume text verbatim: whatever the
    text, it occurs unchanged inside the prompt built from it. *)
Theorem prompt_embeds_text (text : string) :
  contains text (LLMParser._create_parsing_prompt text) = true.
Proof.
  unfold LLMParser._create_parsing_prompt.
  do 5 apply contains_later. apply contains_itself.
Qed.

(* ===================================================================== *)
(** ** The asynchronous endpoints *)
(* ===================================================================== *)

(** X27. The asynchronous endpoint never queues a job. Whatever the request,
    it answers [success=False] with an error that starts with
    "Failed to queue job: " and without a job id; it raises nothing and
    calls no collaborator. The status endpoint raises status 410 for every
    job id. *)
Theorem async_path_is_disabled (http_exception_str : Z -> string -> string)
    (file : UploadFile) (use_llm_fallback : bool) (llm_provider job_id : string)
    (log : list routes.event) :
  (exists msg,
      routes_async.parse_resume_async http_exception_str file
        use_llm_fallback llm_provider log
      = (inr {| ParseResponse.success := false;
                ParseResponse.data := None;
                ParseResponse.error := Some ("Failed to queue job: " ++ msg);
                ParseResponse.job_id := None |}, log))
  /\ routes_async.get_job_status job_id log
     = (inl (HTTPException 410 "Async job status tracking has been disabled"),
        log).
Proof.
  split; [|reflexivity].
  unfold routes_async.parse_resume_async, routes_async.parse_resume_async_body,
    routes.try_except.
  destruct (negb (truthy (filename file))); [eexists; reflexivity|].
  destruct (negb (mem _ settings.SUPPORTED_FORMATS)); [eexists; reflexivity|].
  destruct (_ <? _)%N; eexists; reflexivity.
Qed.

(* ===================================================================== *)
(** ** The text extraction dispatch *)
(* ===================================================================== *)

Lemma supported_extension (ext : string) :
  mem ext settings.SUPPORTED_FORMATS = true ->
  In ext ["pdf"; "docx"; "doc"; "txt"; "png"; "jpg"; "jpeg"].
Proof.
  unfold mem. intros (x & Hin & Heq)%existsb_exists.
  apply String.eqb_eq in Heq. now subst x.
Qed.

(** X28. For a file name whose extension the route admits, the extractor
    never ends in its unsupported-type branch, whatever the detection says
    or however it fails: the outcome is that of one of the three format
    methods, with a failure wrapped as "Text extraction failed: ...", or the
    decoded content tagged "text". *)
Theorem extract_text_dispatch (B : TextExtractor.Bridge)
    (file_content filename : string) :
  mem (TextExtractor.extension filename) settings.SUPPORTED_FORMATS = true ->
  In (TextExtractor.extract_text B file_content filename)
     [wrapped "Text extraction failed: "
              (TextExtractor._extract_from_pdf B file_content);
      wrapped "Text extraction failed: "
              (TextExtractor._extract_from_docx B file_content);
      wrapped "Text extraction failed: "
              (TextExtractor._extract_from_image B file_content);
      inr (TextExtractor.decode_utf8_ignore B file_content, "text")].
Proof.
  intros Hext%supported_extension.
  assert (Hby_type : forall file_type,
    In file_type ["pdf"; "docx"; "doc"; "txt"; "png"; "jpg"; "jpeg"] ->
    In (Raise.try_except
          (if String.eqb file_type "pdf"
           then TextExtractor._extract_from_pdf B file_content
           else if mem file_type ["docx"; "doc"]
           then TextExtractor._extract_from_docx B file_content
           else if mem file_type ["png"; "jpg"; "jpeg"]
           then TextExtractor._extract_from_image B file_content
           else if String.eqb file_type "txt"
           then inr (TextExtractor.decode_utf8_ignore B file_content, "text")
           else inl (ValueError ("Unsupported file type: " ++ file_type)))
          (fun e => inl (Exception ("Text extraction failed: " ++ str_exn e))))
       [wrapped "Text extraction failed: "
                (TextExtractor._extract_from_pdf B file_content);
        wrapped "Text extraction failed: "
                (TextExtractor._extract_from_docx B file_content);
        wrapped "Text extraction failed: "
                (TextExtractor._extract_from_image B file_content);
        inr (TextExtractor.decode_utf8_ignore B file_content, "text")]).
  { intros file_type Hin. simpl in Hin.
    destruct Hin as [<-|[<-|[<-|[<-|[<-|[<-|[<-|[]]]]]]]];
      unfold Raise.try_except, wrapped; simpl;
      try destruct (TextExtractor._extract_from_pdf B file_content);
      try destruct (TextExtractor._extract_from_docx B file_content);
      try destruct (TextExtractor._extract_from_image B file_content);
      auto 6. }
  unfold TextExtractor.extract_text. cbv zeta.
  apply Hby_type. unfold TextExtractor._detect_file_type.
  destruct (TextExtractor.magic_from_buffer B file_content) as [e|mime];
    [assumption|].
  repeat match goal with
         | |- context [if ?b then _ else _] => destruct b
         end; simpl; auto 8.
Qed.

Lemma extract_text_dispatch_witness :
  In (TextExtractor.extract_text failing_bridge "%PDF-1.4" "resume.PDF")
     [wrapped "Text extraction failed: "
              (TextExtractor._extract_from_pdf failing_bridge "%PDF-1.4");
      wrapped "Text extraction failed: "
              (TextExtractor._extract_from_docx failing_bridge "%PDF-1.4");
      wrapped "Text extraction failed: "
              (TextExtractor._extract_from_image failing_bridge "%PDF-1.4");
      inr (TextExtractor.decode_utf8_ignore failing_bridge "%PDF-1.4", "text")].
Proof.
  apply (extract_text_dispatch failing_bridge "%PDF-1.4" "resume.PDF").
  reflexivity.
Defined.
